(** * BrandBoost: form validation, prompt assembly, submission and download

    A shallow embedding of the in-repository logic of the BrandBoost client
    ([src/app/client.tsx]) and of the two versions of the generation flow
    ([src/ai/flows/generate-marketing-asset-templates.ts]), followed by the
    properties proved about them. *)

From Stdlib Require Import List String Ascii Arith NArith Bool Lia QArith.
Import ListNotations.
Close Scope Q_scope.

Set Implicit Arguments.

(* ================================================================== *)
(** ** JavaScript strings *)
(* ================================================================== *)

(** A JavaScript string is a sequence of UTF-16 code units, and [length]
    counts code units.  [lit] embeds an ASCII literal of the source. *)
Definition codeunit := N.
Definition jsstring := list codeunit.

Definition lit (s : string) : jsstring :=
  map N_of_ascii (list_ascii_of_string s).

(** The double quote character, written by its code unit. *)
Definition dquote : jsstring := [34%N].

(** [s === t] on strings. *)
Fixpoint streq (s t : jsstring) : bool :=
  match s, t with
  | [], [] => true
  | c :: s', d :: t' => N.eqb c d && streq s' t'
  | _, _ => false
  end.

(** Truthiness of a string: only the empty string is falsy. *)
Definition truthy (s : jsstring) : bool :=
  match s with
  | [] => false
  | _ :: _ => true
  end.

(** Truthiness of a value that is a string or [undefined]. *)
Definition truthy_opt (o : option jsstring) : bool :=
  match o with
  | Some s => truthy s
  | None => false
  end.

(** [o || dflt] for a value that is a string or [undefined]. *)
Definition or_else (o : option jsstring) (dflt : jsstring) : jsstring :=
  match o with
  | Some s => if truthy s then s else dflt
  | None => dflt
  end.

(** [Array.prototype.includes] on an array of strings. *)
Definition includes (l : list jsstring) (s : jsstring) : bool :=
  existsb (streq s) l.

(** [s] occurs in [t] as a contiguous piece. *)
Definition occurs_in (s t : jsstring) : Prop :=
  exists pre post, t = pre ++ s ++ post.

Fixpoint starts_with (s t : jsstring) : bool :=
  match s, t with
  | [], _ => true
  | c :: s', d :: t' => N.eqb c d && starts_with s' t'
  | _ :: _, [] => false
  end.

(** Executable counterpart of [occurs_in]. *)
Fixpoint occursb (s t : jsstring) : bool :=
  starts_with s t ||
  match t with
  | [] => false
  | _ :: t' => occursb s t'
  end.

(* ================================================================== *)
(** ** Client-side validation ([client.tsx], lines 32-62) *)
(* ================================================================== *)

Module Validation.

(** What the schema reads of a browser [File]. *)
Record File := {
  name : jsstring;
  size : N;
  type : jsstring
}.

(** The value of a file field: a [FileList], or [null]/[undefined]. *)
Definition FileList := option (list File).

Definition MAX_FILE_SIZE : N := 5 * 1024 * 1024.

Definition ACCEPTED_IMAGE_TYPES : list jsstring :=
  [lit "image/jpeg"; lit "image/jpg"; lit "image/png"; lit "image/webp"].

(** [files?.[0]] *)
Definition first_file (files : FileList) : option File :=
  match files with
  | Some (f :: _) => Some f
  | _ => None
  end.

(** [files?.[0]?.size <= MAX_FILE_SIZE]; the comparison with [undefined]
    is false. *)
Definition size_ok (files : FileList) : bool :=
  match first_file files with
  | Some f => (size f <=? MAX_FILE_SIZE)%N
  | None => false
  end.

(** [ACCEPTED_IMAGE_TYPES.includes(files?.[0]?.type)] *)
Definition type_ok (files : FileList) : bool :=
  match first_file files with
  | Some f => includes ACCEPTED_IMAGE_TYPES (type f)
  | None => false
  end.

(** [!files || files.length === 0] *)
Definition no_files (files : FileList) : bool :=
  match files with
  | None => true
  | Some l => Nat.eqb (List.length l) 0
  end.

(** [files?.length == 1] *)
Definition one_file (files : FileList) : bool :=
  match files with
  | None => false
  | Some l => Nat.eqb (List.length l) 1
  end.

(** An issue is the message of the check that failed. *)
Definition issue := jsstring.

(** [.refine(check, message)]: the issue is raised when the check is false;
    the refinements of a chain are all run. *)
Definition refine (A : Type) (check : A -> bool) (message : jsstring) (a : A)
  : list issue :=
  if check a then [] else [message].

Definition imageFileSchema (files : FileList) : list issue :=
  refine (fun files => no_files files || size_ok files)
         (lit "Max file size is 5MB.") files
  ++ refine (fun files => no_files files || type_ok files)
            (lit ".jpg, .jpeg, .png and .webp files are accepted.") files.

Definition logoSchema (files : FileList) : list issue :=
  refine one_file (lit "Logo is required.") files
  ++ refine size_ok (lit "Max file size is 5MB.") files
  ++ refine type_ok (lit ".jpg, .jpeg, .png and .webp files are accepted.") files.

(** [z.string().min(n, message)]: a value that is not a string raises
    zod's own issue, a string shorter than [n] raises [message]. *)
Definition string_min (n : nat) (message : jsstring) (v : option jsstring)
  : list issue :=
  match v with
  | None => [lit "Required"]
  | Some s => if Nat.ltb (List.length s) n then [message] else []
  end.

(** The values held by the form before validation; a field that is
    missing holds [None]. *)
Record RawValues := {
  raw_logo : FileList;
  raw_businessName : option jsstring;
  raw_assetType : option jsstring;
  raw_imageDescription : option jsstring;
  raw_referenceImage1 : FileList;
  raw_referenceImage2 : FileList;
  raw_customText : option jsstring;
  raw_colorPalette : option jsstring
}.

(** [FormValues = z.infer<typeof formSchema>] *)
Record FormValues := {
  logo : FileList;
  businessName : jsstring;
  assetType : jsstring;
  imageDescription : jsstring;
  referenceImage1 : FileList;
  referenceImage2 : FileList;
  customText : option jsstring;
  colorPalette : option jsstring
}.

(** The issues of each field of [formSchema], in the order of its keys. *)
Definition formIssues (v : RawValues) : list issue :=
  logoSchema (raw_logo v)
  ++ string_min 2 (lit "Business name must be at least 2 characters.")
       (raw_businessName v)
  ++ string_min 1 (lit "Please select an asset type.") (raw_assetType v)
  ++ string_min 1 (lit "Image description is required.")
       (raw_imageDescription v)
  ++ imageFileSchema (raw_referenceImage1 v)
  ++ imageFileSchema (raw_referenceImage2 v).

(** The same issues, field by field, for the six validated keys in the
    order of the schema. *)
Definition fieldIssues (v : RawValues) : list (list issue) :=
  [logoSchema (raw_logo v);
   string_min 2 (lit "Business name must be at least 2 characters.")
     (raw_businessName v);
   string_min 1 (lit "Please select an asset type.") (raw_assetType v);
   string_min 1 (lit "Image description is required.")
     (raw_imageDescription v);
   imageFileSchema (raw_referenceImage1 v);
   imageFileSchema (raw_referenceImage2 v)].

(** [formSchema.safeParse]: the parsed values, or the issues.  Without
    issues the three required strings are present, so the second case
    does not arise. *)
Definition formSchema (v : RawValues) : FormValues + list issue :=
  match formIssues v, raw_businessName v, raw_assetType v,
        raw_imageDescription v with
  | [], Some bn, Some at_, Some d =>
      inl {| logo := raw_logo v;
             businessName := bn;
             assetType := at_;
             imageDescription := d;
             referenceImage1 := raw_referenceImage1 v;
             referenceImage2 := raw_referenceImage2 v;
             customText := raw_customText v;
             colorPalette := raw_colorPalette v |}
  | [], _, _, _ => inr [lit "Required"]
  | issues, _, _, _ => inr issues
  end.

End Validation.

(* ================================================================== *)
(** ** Prompts and the 2D canvas *)
(* ================================================================== *)

(** A prompt segment: [{text: s}] or [{media: {url: u}}]. *)
Inductive Part :=
| text (s : jsstring)
| media (url : jsstring).

(** The [media] of a generation response. *)
Record Media := { url : jsstring }.

Definition is_text (p : Part) : bool :=
  match p with text _ => true | media _ => false end.

(** The image segments of a prompt, in order. *)
Fixpoint mediaUrls (prompt : list Part) : list jsstring :=
  match prompt with
  | [] => []
  | media u :: rest => u :: mediaUrls rest
  | text _ :: rest => mediaUrls rest
  end.

(** The text segments of a prompt, in order. *)
Fixpoint texts (prompt : list Part) : list jsstring :=
  match prompt with
  | [] => []
  | text s :: rest => s :: texts rest
  | media _ :: rest => texts rest
  end.

(** The prompt is a sequence of pairs: a text segment, then an image. *)
Fixpoint labelled (prompt : list Part) : bool :=
  match prompt with
  | [] => true
  | text _ :: media _ :: rest => labelled rest
  | _ => false
  end.

(** The text segment that comes immediately before the image [u]. *)
Fixpoint label_of (u : jsstring) (prompt : list Part) : option jsstring :=
  match prompt with
  | text s :: ((media v :: _) as rest) =>
      if streq u v then Some s else label_of u rest
  | _ :: rest => label_of u rest
  | [] => None
  end.

Module Canvas.

(** An 8-bit RGBA pixel, not premultiplied. *)
Record RGBA := { red : N; green : N; blue : N; alpha : N }.

Definition clamp8 (n : N) : N := N.min n 255.

(** A bitmap: a decoded image or the backing store of a canvas. *)
Record ImageData := {
  width : N;
  height : N;
  pixel : N -> N -> RGBA
}.

Definition transparent : RGBA :=
  {| red := 0; green := 0; blue := 0; alpha := 0 |}.

Definition black : RGBA :=
  {| red := 0; green := 0; blue := 0; alpha := 255 |}.

(** Assigning [canvas.width]/[canvas.height] clears the canvas to
    transparent black. *)
Definition createCanvas (w h : N) : ImageData :=
  {| width := w; height := h; pixel := fun _ _ => transparent |}.

(** Source-over compositing of pixel [s] on pixel [d], the default
    [globalCompositeOperation] of a 2D context. *)
Definition over (s d : RGBA) : RGBA :=
  let sa := clamp8 (alpha s) in
  let da := clamp8 (alpha d) in
  let a := (sa + da * (255 - sa) / 255)%N in
  let channel (cs cd : N) : N :=
    if (a =? 0)%N then 0%N
    else clamp8 ((clamp8 cs * sa + clamp8 cd * da * (255 - sa) / 255) / a) in
  {| red := channel (red s) (red d);
     green := channel (green s) (green d);
     blue := channel (blue s) (blue d);
     alpha := clamp8 a |}.

Definition hexDigit (c : codeunit) : option N :=
  if ((48 <=? c) && (c <=? 57))%N then Some (c - 48)%N
  else if ((65 <=? c) && (c <=? 70))%N then Some (c - 55)%N
  else if ((97 <=? c) && (c <=? 102))%N then Some (c - 87)%N
  else None.

Definition hexByte (hi lo : codeunit) : option N :=
  match hexDigit hi, hexDigit lo with
  | Some h, Some l => Some (16 * h + l)%N
  | _, _ => None
  end.

(** A CSS colour of the form [#RRGGBB]. *)
Definition parseColor (s : jsstring) : option RGBA :=
  match s with
  | [h; r1; r2; g1; g2; b1; b2] =>
      if (h =? 35)%N then
        match hexByte r1 r2, hexByte g1 g2, hexByte b1 b2 with
        | Some r, Some g, Some b =>
            Some {| red := r; green := g; blue := b; alpha := 255 |}
        | _, _, _ => None
        end
      else None
  | _ => None
  end.

(** A 2D rendering context on its canvas. *)
Record Context2D := {
  canvas : ImageData;
  fillStyle : RGBA
}.

(** [canvas.getContext('2d')], with the default fill style. *)
Definition getContext (c : ImageData) : Context2D :=
  {| canvas := c; fillStyle := black |}.

(** [ctx.fillStyle = s]; a string that is not a colour is ignored. *)
Definition set_fillStyle (s : jsstring) (ctx : Context2D) : Context2D :=
  match parseColor s with
  | Some c => {| canvas := canvas ctx; fillStyle := c |}
  | None => ctx
  end.

Definition inside (lo len i : N) : bool :=
  ((lo <=? i) && (i <? lo + len))%N.

(** [ctx.fillRect(x, y, w, h)] *)
Definition fillRect (x y w h : N) (ctx : Context2D) : Context2D :=
  let c := canvas ctx in
  {| canvas :=
       {| width := width c;
          height := height c;
          pixel := fun i j =>
            if inside x w i && inside y h j
            then over (fillStyle ctx) (pixel c i j)
            else pixel c i j |};
     fillStyle := fillStyle ctx |}.

(** [ctx.drawImage(img, dx, dy)] *)
Definition drawImage (img : ImageData) (dx dy : N) (ctx : Context2D)
  : Context2D :=
  let c := canvas ctx in
  {| canvas :=
       {| width := width c;
          height := height c;
          pixel := fun i j =>
            if inside dx (width img) i && inside dy (height img) j
            then over (pixel img (i - dx) (j - dy)) (pixel c i j)
            else pixel c i j |};
     fillStyle := fillStyle ctx |}.

(** Every pixel of the bitmap is fully opaque. *)
Definition opaque (c : ImageData) : Prop :=
  forall i j, (i < width c)%N -> (j < height c)%N ->
              alpha (pixel c i j) = 255%N.

End Canvas.

(* ================================================================== *)
(** ** The browser, the model service and the state of the page *)
(* ================================================================== *)

(** The result of a computation that may throw; an error is carried by
    its message. *)
Inductive outcome (A : Type) :=
| Ok (a : A)
| Throw (error : jsstring).
Arguments Throw {A} error.

(** What lies outside the repository: the generative model behind
    [ai.generate], the [FileReader], the image decoder and the canvas
    encoder of the browser. *)
Record Platform := {
  (** [ai.generate({model, prompt, config})]: the [media] of the response,
      if any, or a thrown error. *)
  ai_generate : list Part -> outcome (option Media);
  (** [FileReader.readAsDataURL]: the data URI, or the reader's error. *)
  readAsDataURL : Validation.File -> outcome jsstring;
  (** Loading an image from a URI; [None] when [onload] never fires. *)
  loadImage : jsstring -> option Canvas.ImageData;
  (** Whether [canvas.getContext('2d')] yields a context. *)
  has2dContext : bool;
  (** [canvas.toDataURL(type, quality)] *)
  toDataURL : Canvas.ImageData -> jsstring -> Q -> jsstring
}.

(** A call of [toast]. *)
Record Toast := {
  variant : option jsstring;
  title : jsstring;
  description : jsstring
}.

(** A click on a link with [href] and [download] set. *)
Record Download := {
  href : jsstring;
  download : jsstring
}.

(** The component's state together with the observable effects so far
    (the most recent effect is last in each list). *)
Record World := {
  generatedImage : option jsstring;
  isLoading : bool;
  downloadFormat : jsstring;
  formValues : Validation.RawValues;
  formErrors : list Validation.issue;
  toasts : list Toast;
  consoleErrors : list jsstring;
  generateCalls : list (list Part);
  downloads : list Download
}.

(** A computation over the world that may throw; the effects made before
    a throw remain. *)
Definition M (A : Type) : Type := World -> outcome A * World.

Definition ret (A : Type) (a : A) : M A := fun w => (Ok a, w).

Definition throw (A : Type) (error : jsstring) : M A :=
  fun w => (Throw error, w).
Arguments throw {A} error.

Definition bind (A B : Type) (m : M A) (k : A -> M B) : M B :=
  fun w =>
    match m w with
    | (Ok a, w') => k a w'
    | (Throw e, w') => (Throw e, w')
    end.

Declare Scope js_scope.
Delimit Scope js_scope with js.
Notation "x <- m ;; k" := (bind m (fun x => k))
  (at level 61, m at next level, right associativity) : js_scope.
Notation "m ;; k" := (bind m (fun _ => k))
  (at level 61, right associativity) : js_scope.
Bind Scope js_scope with M.

(** [try { body } catch (error) { handler } finally { fin }] *)
Definition try_catch_finally (A : Type) (body : M A)
  (handler : jsstring -> M A) (fin : M unit) : M A :=
  fun w =>
    let (r, w1) :=
      match body w with
      | (Ok a, w') => (Ok a, w')
      | (Throw e, w') => handler e w'
      end in
    match fin w1 with
    | (Ok _, w2) => (r, w2)
    | (Throw e, w2) => (Throw e, w2)
    end.

(** The outcome of an external call, lifted into [M]. *)
Definition lift (A : Type) (r : outcome A) : M A := fun w => (r, w).

Definition modify (f : World -> World) : M unit := fun w => (Ok tt, f w).

Definition get (A : Type) (f : World -> A) : M A := fun w => (Ok (f w), w).

Definition setGeneratedImage (v : option jsstring) : M unit :=
  modify (fun w =>
    {| generatedImage := v; isLoading := isLoading w;
       downloadFormat := downloadFormat w; formValues := formValues w;
       formErrors := formErrors w; toasts := toasts w;
       consoleErrors := consoleErrors w;
       generateCalls := generateCalls w; downloads := downloads w |}).

Definition setIsLoading (v : bool) : M unit :=
  modify (fun w =>
    {| generatedImage := generatedImage w; isLoading := v;
       downloadFormat := downloadFormat w; formValues := formValues w;
       formErrors := formErrors w; toasts := toasts w;
       consoleErrors := consoleErrors w;
       generateCalls := generateCalls w; downloads := downloads w |}).

Definition setDownloadFormat (v : jsstring) : M unit :=
  modify (fun w =>
    {| generatedImage := generatedImage w; isLoading := isLoading w;
       downloadFormat := v; formValues := formValues w;
       formErrors := formErrors w; toasts := toasts w;
       consoleErrors := consoleErrors w;
       generateCalls := generateCalls w; downloads := downloads w |}).

(** The form's fields are replaced by [v]. *)
Definition setValues (v : Validation.RawValues) : M unit :=
  modify (fun w =>
    {| generatedImage := generatedImage w; isLoading := isLoading w;
       downloadFormat := downloadFormat w; formValues := v;
       formErrors := formErrors w; toasts := toasts w;
       consoleErrors := consoleErrors w;
       generateCalls := generateCalls w; downloads := downloads w |}).

Definition setErrors (e : list Validation.issue) : M unit :=
  modify (fun w =>
    {| generatedImage := generatedImage w; isLoading := isLoading w;
       downloadFormat := downloadFormat w; formValues := formValues w;
       formErrors := e; toasts := toasts w;
       consoleErrors := consoleErrors w;
       generateCalls := generateCalls w; downloads := downloads w |}).

Definition toast (t : Toast) : M unit :=
  modify (fun w =>
    {| generatedImage := generatedImage w; isLoading := isLoading w;
       downloadFormat := downloadFormat w; formValues := formValues w;
       formErrors := formErrors w; toasts := toasts w ++ [t];
       consoleErrors := consoleErrors w;
       generateCalls := generateCalls w; downloads := downloads w |}).

Definition console_error (label error : jsstring) : M unit :=
  modify (fun w =>
    {| generatedImage := generatedImage w; isLoading := isLoading w;
       downloadFormat := downloadFormat w; formValues := formValues w;
       formErrors := formErrors w; toasts := toasts w;
       consoleErrors := consoleErrors w ++ [label ++ lit " " ++ error];
       generateCalls := generateCalls w; downloads := downloads w |}).

(** [link.click()] on the link as configured. *)
Definition click (d : Download) : M unit :=
  modify (fun w =>
    {| generatedImage := generatedImage w; isLoading := isLoading w;
       downloadFormat := downloadFormat w; formValues := formValues w;
       formErrors := formErrors w; toasts := toasts w;
       consoleErrors := consoleErrors w;
       generateCalls := generateCalls w; downloads := downloads w ++ [d] |}).

(** The one outbound call: the prompt is recorded, then the service
    answers. *)
Definition generate (P : Platform) (prompt : list Part)
  : M (option Media) :=
  fun w =>
    (ai_generate P prompt,
     {| generatedImage := generatedImage w; isLoading := isLoading w;
        downloadFormat := downloadFormat w; formValues := formValues w;
        formErrors := formErrors w; toasts := toasts w;
        consoleErrors := consoleErrors w;
        generateCalls := generateCalls w ++ [prompt];
        downloads := downloads w |}).

(* ================================================================== *)
(** ** The generation flow, first version
       ([generate-marketing-asset-templates.ts], lines 1-88) *)
(* ================================================================== *)

Definition nl : jsstring := [10%N].

Module FlowA.

(** The keys of [GenerateMarketingAssetTemplatesInputSchema], lines 14-27,
    each with whether it is optional. *)
Definition GenerateMarketingAssetTemplatesInputSchema : list (string * bool) :=
  [("businessLogoDataUri"%string, false);
   ("businessName"%string, false);
   ("assetType"%string, false);
   ("imageDescription"%string, false);
   ("customText"%string, true);
   ("colorPalette"%string, true);
   ("referenceImage1DataUri"%string, true);
   ("referenceImage2DataUri"%string, true)].

Record GenerateMarketingAssetTemplatesInput := {
  businessLogoDataUri : jsstring;
  businessName : jsstring;
  assetType : jsstring;
  imageDescription : jsstring;
  customText : option jsstring;
  colorPalette : option jsstring;
  referenceImage1DataUri : option jsstring;
  referenceImage2DataUri : option jsstring
}.

Record GenerateMarketingAssetTemplatesOutput := {
  assetDataUri : jsstring
}.

(** The sentences of the template literal that the properties name. *)
Definition referenceInstruction : jsstring :=
  lit "If reference images are provided, use them for general inspiration only. Do not copy any text or graphics from the reference images.".

(** The template literal of lines 50-61.  The source file spells the
    apostrophe of "user's" as the three characters U+00E2 U+20AC U+2122. *)
Definition promptText (input : GenerateMarketingAssetTemplatesInput)
  : jsstring :=
  lit "You are a professional graphic designer AI assistant that creates high-quality, modern, and creative marketing assets for businesses."
  ++ nl ++ nl
  ++ lit "Generate a " ++ assetType input
  ++ lit " based on the following description: "
  ++ dquote ++ imageDescription input ++ dquote ++ lit "."
  ++ nl ++ nl
  ++ lit "Incorporate the user" ++ [226; 8364; 8482]%N
  ++ lit "s provided business logo and name in a clean, visually appealing way. Use the custom text and color palette if provided."
  ++ nl ++ nl
  ++ referenceInstruction
  ++ nl ++ nl
  ++ lit "Business Name: " ++ businessName input ++ nl
  ++ lit "Custom Text: " ++ or_else (customText input) [] ++ nl
  ++ lit "Color Palette: " ++ or_else (colorPalette input) [] ++ nl.

(** [if (uri) { prompt.push({text: label}); prompt.push({media: {url: uri}}) }] *)
Definition push_reference (label : jsstring) (uri : option jsstring)
  (prompt : list Part) : list Part :=
  match uri with
  | Some u => if truthy u then prompt ++ [text label; media u] else prompt
  | None => prompt
  end.

(** The array [prompt] built at lines 63-72. *)
Definition prompt (input : GenerateMarketingAssetTemplatesInput)
  : list Part :=
  let prompt := [text (promptText input); media (businessLogoDataUri input)] in
  let prompt :=
    push_reference (lit "Reference Image 1:") (referenceImage1DataUri input)
      prompt in
  let prompt :=
    push_reference (lit "Reference Image 2:") (referenceImage2DataUri input)
      prompt in
  prompt.

Definition generateMarketingAssetTemplatesFlow (P : Platform)
  (input : GenerateMarketingAssetTemplatesInput)
  : M GenerateMarketingAssetTemplatesOutput :=
  (r <- generate P (prompt input) ;;
   match r with
   | None => throw (lit "Image generation failed.")
   | Some m => ret {| assetDataUri := url m |}
   end)%js.

Definition generateMarketingAssetTemplates (P : Platform)
  (input : GenerateMarketingAssetTemplatesInput)
  : M GenerateMarketingAssetTemplatesOutput :=
  generateMarketingAssetTemplatesFlow P input.

End FlowA.

(* ================================================================== *)
(** ** The generation flow, second version
       ([generate-marketing-asset-templates.ts], lines 89-166) *)
(* ================================================================== *)

Module FlowB.

(** The keys of this version's [GenerateMarketingAssetTemplatesInputSchema],
    lines 102-112, each with whether it is optional. *)
Definition GenerateMarketingAssetTemplatesInputSchema : list (string * bool) :=
  [("businessLogoDataUri"%string, false);
   ("businessName"%string, false);
   ("assetType"%string, false);
   ("customText"%string, true);
   ("colorPalette"%string, true)].

(** The template string given to [ai.definePrompt], lines 132-140, as it
    is written. *)
Definition promptSource : jsstring :=
  lit "You are a professional graphic designer AI assistant that creates high-quality, modern, and creative marketing assets for businesses."
  ++ nl ++ nl
  ++ lit "Generate a {{{assetType}}} that incorporates the user" ++ [8217%N]
  ++ lit "s provided business logo and name in a clean, visually appealing way. Use the custom text and color palette if provided."
  ++ nl ++ nl
  ++ lit "Business Name: {{{businessName}}}" ++ nl
  ++ lit "Business Logo: {{media url=businessLogoDataUri}}" ++ nl
  ++ lit "Custom Text: {{#if customText}}'{{{customText}}}'{{/if}}" ++ nl
  ++ lit "Color Palette: {{#if colorPalette}}'{{{colorPalette}}}'{{/if}}" ++ nl.

Record GenerateMarketingAssetTemplatesInput := {
  businessLogoDataUri : jsstring;
  businessName : jsstring;
  assetType : jsstring;
  customText : option jsstring;
  colorPalette : option jsstring
}.

Record GenerateMarketingAssetTemplatesOutput := {
  assetDataUri : jsstring
}.

(** The Handlebars constructs that the prompt template uses. *)
Inductive Template :=
| Lit (s : jsstring)
    (** literal text *)
| Var (field : GenerateMarketingAssetTemplatesInput -> option jsstring)
    (** [{{{field}}}] *)
| MediaUrl (field : GenerateMarketingAssetTemplatesInput -> option jsstring)
    (** [{{media url=field}}] *)
| If (field : GenerateMarketingAssetTemplatesInput -> option jsstring)
     (body : Template)
    (** [{{#if field}}body{{/if}}] *)
| Seq (a b : Template).

Infix "+++" := Seq (at level 60, right associativity).

(** The pieces a template expands to on the fields of a request: a
    variable renders its value (an absent one renders nothing), a
    conditional renders its body when the value is truthy, a media helper
    becomes an image segment. *)
Fixpoint expand (t : Template) (input : GenerateMarketingAssetTemplatesInput)
  : list Part :=
  match t with
  | Lit s => [text s]
  | Var f => [text (or_else (f input) [])]
  | MediaUrl f => [media (or_else (f input) [])]
  | If f body => if truthy_opt (f input) then expand body input else []
  | Seq a b => expand a input ++ expand b input
  end.

(** The text between two images is one text segment. *)
Fixpoint coalesce (ps : list Part) : list Part :=
  match ps with
  | [] => []
  | media u :: rest => media u :: coalesce rest
  | text s :: rest =>
      match coalesce rest with
      | text s' :: rest' => text (s ++ s') :: rest'
      | other => text s :: other
      end
  end.

(** The segments that a template renders to on the fields of a request. *)
Definition render (t : Template) (input : GenerateMarketingAssetTemplatesInput)
  : list Part :=
  coalesce (expand t input).

(** The template of [generationPrompt], lines 132-140, that is
    [promptSource] read as Handlebars; here the apostrophe of "user's" is
    U+2019. *)
Definition generationPrompt : Template :=
  Lit (lit "You are a professional graphic designer AI assistant that creates high-quality, modern, and creative marketing assets for businesses."
       ++ nl ++ nl ++ lit "Generate a ")
  +++ Var (fun i => Some (assetType i))
  +++ Lit (lit " that incorporates the user" ++ [8217%N]
           ++ lit "s provided business logo and name in a clean, visually appealing way. Use the custom text and color palette if provided."
           ++ nl ++ nl ++ lit "Business Name: ")
  +++ Var (fun i => Some (businessName i))
  +++ Lit (nl ++ lit "Business Logo: ")
  +++ MediaUrl (fun i => Some (businessLogoDataUri i))
  +++ Lit (nl ++ lit "Custom Text: ")
  +++ If customText (Lit (lit "'") +++ Var customText +++ Lit (lit "'"))
  +++ Lit (nl ++ lit "Color Palette: ")
  +++ If colorPalette (Lit (lit "'") +++ Var colorPalette +++ Lit (lit "'"))
  +++ Lit nl.

(** The template rendered on the fields of a request.  This is what the
    template says when it is given a request; it is not what this
    version's flow sends.  The flow, lines 153-158, renders the template on
    the object [{input}], on which none of the template's keys is defined,
    and hands the whole render result to [ai.generate] as its [prompt]
    option; what the library makes of that call is not in the sources, so
    the body of this flow is left out of the embedding. *)
Definition prompt (input : GenerateMarketingAssetTemplatesInput)
  : list Part :=
  render generationPrompt input.

(** Parsing an object with this version's input schema keeps the keys the
    schema declares and drops the others. *)
Definition ofInputA (a : FlowA.GenerateMarketingAssetTemplatesInput)
  : GenerateMarketingAssetTemplatesInput :=
  {| businessLogoDataUri := FlowA.businessLogoDataUri a;
     businessName := FlowA.businessName a;
     assetType := FlowA.assetType a;
     customText := FlowA.customText a;
     colorPalette := FlowA.colorPalette a |}.

End FlowB.

(* ================================================================== *)
(** ** The server action called by the client *)
(* ================================================================== *)

Module Actions.

(** Modelled from the spec: the module [@/app/actions], from which the
    client imports [generateMarketingAssetTemplates], is not among the
    sources.  The spec's control flow goes from the form straight to the
    generation function, and the client passes the eight fields of the
    first version's input, so the action is that version's exported
    function. *)
Definition generateMarketingAssetTemplates (P : Platform)
  (input : FlowA.GenerateMarketingAssetTemplatesInput)
  : M FlowA.GenerateMarketingAssetTemplatesOutput :=
  FlowA.generateMarketingAssetTemplates P input.

End Actions.

(* ================================================================== *)
(** ** The client component ([client.tsx], lines 66-217) *)
(* ================================================================== *)

Module Client.

Import Validation.

Definition fileToDataUri (P : Platform) (file : File) : M jsstring :=
  lift (readAsDataURL P file).

(** [files?.[0] ? await fileToDataUri(files[0]) : undefined] *)
Definition optionalDataUri (P : Platform) (files : FileList)
  : M (option jsstring) :=
  match first_file files with
  | Some f => (u <- fileToDataUri P f ;; ret (Some u))%js
  | None => ret None
  end.

(** [onSubmit], lines 139-184.  Reading [values.logo[0]] of a missing
    logo, or passing [undefined] to the file reader, throws inside the
    [try] block. *)
Definition onSubmit (P : Platform) (values : FormValues) : M unit :=
  (setIsLoading true ;;
   setGeneratedImage None ;;
   try_catch_finally
     (logoFile <-
        match first_file (logo values) with
        | Some f => ret f
        | None => throw (lit "TypeError")
        end ;;
      businessLogoDataUri <- fileToDataUri P logoFile ;;
      referenceImage1DataUri <- optionalDataUri P (referenceImage1 values) ;;
      referenceImage2DataUri <- optionalDataUri P (referenceImage2 values) ;;
      result <- Actions.generateMarketingAssetTemplates P
        {| FlowA.businessLogoDataUri := businessLogoDataUri;
           FlowA.businessName := businessName values;
           FlowA.assetType := assetType values;
           FlowA.imageDescription := imageDescription values;
           FlowA.customText := customText values;
           FlowA.colorPalette := colorPalette values;
           FlowA.referenceImage1DataUri := referenceImage1DataUri;
           FlowA.referenceImage2DataUri := referenceImage2DataUri |} ;;
      if truthy (FlowA.assetDataUri result) then
        setGeneratedImage (Some (FlowA.assetDataUri result)) ;;
        toast {| variant := None;
                 title := lit "Asset Generated!";
                 description := lit "Your new marketing asset is ready." |}
      else throw (lit "AI did not return an image."))
     (fun error =>
        console_error (lit "Error generating asset:") error ;;
        toast {| variant := Some (lit "destructive");
                 title := lit "Generation Failed";
                 description :=
                   lit "Could not generate the marketing asset. Please try again." |})
     (setIsLoading false))%js.

(** What the form's resolver keeps of the issues of [formSchema]: one
    error per field, the first issue raised on it.  The messages are
    listed in the order of the fields. *)
Definition fieldErrors (values : RawValues) : list issue :=
  flat_map (firstn 1) (fieldIssues values).

(** [form.handleSubmit(onSubmit)]: the resolver validates the form's
    values with [formSchema]; the handler runs only on valid values,
    otherwise each field that failed shows its error. *)
Definition handleSubmit (onValid : FormValues -> M unit) : M unit :=
  (values <- get formValues ;;
   match formSchema values with
   | inl parsed => setErrors [] ;; onValid parsed
   | inr _ => setErrors (fieldErrors values)
   end)%js.

(** The name given to the saved file, line 192. *)
Definition downloadName (businessName : option jsstring) (format : jsstring)
  : jsstring :=
  or_else businessName (lit "brandboost") ++ lit "-asset." ++ format.

(** [downloadWithFormat], lines 190-196. *)
Definition downloadWithFormat (uri format : jsstring) : M unit :=
  (businessName <- get (fun w => raw_businessName (formValues w)) ;;
   click {| href := uri; download := downloadName businessName format |})%js.

(** The canvas as it is when [toDataURL] is called, lines 203-208. *)
Definition rasterize (img : Canvas.ImageData) : Canvas.ImageData :=
  let canvas := Canvas.createCanvas (Canvas.width img) (Canvas.height img) in
  let ctx := Canvas.getContext canvas in
  let ctx := Canvas.set_fillStyle (lit "#FFFFFF") ctx in
  let ctx :=
    Canvas.fillRect 0 0 (Canvas.width canvas) (Canvas.height canvas) ctx in
  let ctx := Canvas.drawImage img 0 0 ctx in
  Canvas.canvas ctx.

(** [handleDownload], lines 186-217. *)
Definition handleDownload (P : Platform) : M unit :=
  (generatedImage <- get generatedImage ;;
   if negb (truthy_opt generatedImage) then ret tt
   else
     let generatedImage := or_else generatedImage [] in
     downloadFormat <- get downloadFormat ;;
     if streq downloadFormat (lit "jpeg") then
       match loadImage P generatedImage with
       | Some img =>
           if has2dContext P then
             let jpegDataUri :=
               toDataURL P (rasterize img) (lit "image/jpeg") (9 # 10)%Q in
             downloadWithFormat jpegDataUri (lit "jpeg")
           else ret tt
       | None => ret tt
       end
     else downloadWithFormat generatedImage (lit "png"))%js.

(** The form's [defaultValues], lines 86-92. *)
Definition defaultValues : RawValues :=
  {| raw_logo := None;
     raw_businessName := Some [];
     raw_assetType := Some (lit "Social Media Post");
     raw_imageDescription := Some [];
     raw_referenceImage1 := None;
     raw_referenceImage2 := None;
     raw_customText := Some [];
     raw_colorPalette := Some [] |}.

(** The page as first rendered, lines 76-81. *)
Definition initial : World :=
  {| generatedImage := None;
     isLoading := false;
     downloadFormat := lit "png";
     formValues := defaultValues;
     formErrors := [];
     toasts := [];
     consoleErrors := [];
     generateCalls := [];
     downloads := [] |}.

(** The world after a computation. *)
Definition exec (A : Type) (m : M A) (w : World) : World := snd (m w).

End Client.

(* ================================================================== *)
(** ** Vocabulary of the statements and concrete inputs *)
(* ================================================================== *)

(** A string field that is missing or empty, and a file field without a
    file. *)
Definition blank (v : option jsstring) : Prop := v = None \/ v = Some [].

Definition unset (files : Validation.FileList) : Prop :=
  files = None \/ files = Some [].

(** The reference image that a field provides: none when the field is
    [undefined] or the empty string. *)
Definition provided (uri : option jsstring) : list jsstring :=
  match uri with
  | Some u => if truthy u then [u] else []
  | None => []
  end.

(** The label and the image that a provided reference contributes. *)
Definition referenceSegments (label : jsstring) (uri : option jsstring)
  : list Part :=
  flat_map (fun u => [text label; media u]) (provided uri).

(** A field on which some issue was raised. *)
Definition failed (issues : list Validation.issue) : bool :=
  match issues with
  | [] => false
  | _ :: _ => true
  end.

(** A label: one line of text that ends with a colon. *)
Definition isLabel (s : jsstring) : bool :=
  negb (existsb (N.eqb 10) s) && N.eqb (last s 0%N) 58.

(** The toast shown by the [catch] block of [onSubmit]. *)
Definition generationFailedToast : Toast :=
  {| variant := Some (lit "destructive");
     title := lit "Generation Failed";
     description :=
       lit "Could not generate the marketing asset. Please try again." |}.

Definition white : Canvas.RGBA :=
  {| Canvas.red := 255; Canvas.green := 255; Canvas.blue := 255;
     Canvas.alpha := 255 |}.

Module Samples.

Import Validation.

Definition sampleFile : File :=
  {| name := lit "logo.png"; size := 204800; type := lit "image/png" |}.

(** A form whose values are all valid except, possibly, the business
    name. *)
Definition sampleValues (businessName : jsstring) : RawValues :=
  {| raw_logo := Some [sampleFile];
     raw_businessName := Some businessName;
     raw_assetType := Some (lit "Website Banner");
     raw_imageDescription := Some (lit "Autumn sale, 20% off");
     raw_referenceImage1 := None;
     raw_referenceImage2 := None;
     raw_customText := Some [];
     raw_colorPalette := Some [] |}.

(** A 2x2 image whose left column is fully transparent and whose right
    column is half transparent. *)
Definition sampleImage : Canvas.ImageData :=
  {| Canvas.width := 2;
     Canvas.height := 2;
     Canvas.pixel := fun i _ =>
       {| Canvas.red := 200; Canvas.green := 40; Canvas.blue := 40;
          Canvas.alpha := (i * 128)%N |} |}.

(** A browser whose file reader, image loader and canvas work, in front
    of a service that answers every prompt with [response]. *)
Definition samplePlatform (response : outcome (option Media)) : Platform :=
  {| ai_generate := fun _ => response;
     readAsDataURL := fun f => Ok (lit "data:" ++ type f ++ lit ";base64,TE9HTw==");
     loadImage := fun _ => Some sampleImage;
     has2dContext := true;
     toDataURL := fun _ mime _ => lit "data:" ++ mime ++ lit ";base64,/9j/4AAQ" |}.

Definition withMedia : Platform :=
  samplePlatform (Ok (Some {| url := lit "data:image/png;base64,iVBORw0KGgo=" |})).

Definition withoutMedia : Platform := samplePlatform (Ok None).

(** The sample form as [formSchema] parses it. *)
Definition parsedValues (businessName : jsstring) : FormValues :=
  {| logo := Some [sampleFile];
     Validation.businessName := businessName;
     assetType := lit "Website Banner";
     imageDescription := lit "Autumn sale, 20% off";
     referenceImage1 := None;
     referenceImage2 := None;
     customText := Some [];
     colorPalette := Some [] |}.

(** The request that [onSubmit] sends for the sample form. *)
Definition sentRequest : FlowA.GenerateMarketingAssetTemplatesInput :=
  {| FlowA.businessLogoDataUri := lit "data:image/png;base64,TE9HTw==";
     FlowA.businessName := lit "Acme Bakery";
     FlowA.assetType := lit "Website Banner";
     FlowA.imageDescription := lit "Autumn sale, 20% off";
     FlowA.customText := Some [];
     FlowA.colorPalette := Some [];
     FlowA.referenceImage1DataUri := None;
     FlowA.referenceImage2DataUri := None |}.

(** The page after the sample form was filled in and submitted, and the
    service answered with an image. *)
Definition afterSuccess : World :=
  Client.exec
    (bind (setValues (sampleValues (lit "Acme Bakery")))
       (fun _ => Client.handleSubmit (Client.onSubmit withMedia)))
    Client.initial.

(** The same page after the user has emptied the business name. *)
Definition afterClearingName : World :=
  Client.exec (setValues (sampleValues [])) afterSuccess.

(** The same page after the user has chosen JPEG. *)
Definition afterChoosingJpeg : World :=
  Client.exec (setDownloadFormat (lit "jpeg")) afterSuccess.

(** A request with every optional field absent. *)
Definition bareRequest : FlowA.GenerateMarketingAssetTemplatesInput :=
  {| FlowA.businessLogoDataUri := lit "data:image/png;base64,TE9HTw==";
     FlowA.businessName := lit "Acme Bakery";
     FlowA.assetType := lit "Flyer";
     FlowA.imageDescription := lit "Autumn sale, 20% off";
     FlowA.customText := None;
     FlowA.colorPalette := None;
     FlowA.referenceImage1DataUri := None;
     FlowA.referenceImage2DataUri := None |}.

(** The same request with another description and both reference
    images. *)
Definition fullRequest : FlowA.GenerateMarketingAssetTemplatesInput :=
  {| FlowA.businessLogoDataUri := lit "data:image/png;base64,TE9HTw==";
     FlowA.businessName := lit "Acme Bakery";
     FlowA.assetType := lit "Flyer";
     FlowA.imageDescription := lit "Grand opening";
     FlowA.customText := None;
     FlowA.colorPalette := None;
     FlowA.referenceImage1DataUri := Some (lit "data:image/webp;base64,UkVGMQ==");
     FlowA.referenceImage2DataUri := Some (lit "data:image/jpeg;base64,UkVGMg==") |}.

End Samples.

(* ================================================================== *)
(** ** The logo integration flow (second flow module of the repository) *)
(* ================================================================== *)

Module IntegrateFlow.

Record IntegrateLogoAndNameInput := {
  templateDataUri : jsstring;
  logoDataUri : jsstring;
  businessName : jsstring
}.

Record IntegrateLogoAndNameOutput := {
  integratedAssetDataUri : jsstring
}.

(** The array passed as [prompt] to [ai.generate]: the template as an
    image, then one template literal in which the logo's data URI and the
    business name are interpolated. *)
Definition prompt (input : IntegrateLogoAndNameInput) : list Part :=
  [media (templateDataUri input);
   text (lit "Integrate this logo: {{media url=" ++ logoDataUri input
         ++ lit "}}, and business name: " ++ businessName input
         ++ lit " into the template")].

(** The flow returns [media!.url]: reading [url] of an absent [media]
    throws a [TypeError]. *)
Definition integrateLogoAndNameFlow (P : Platform)
  (input : IntegrateLogoAndNameInput) : M IntegrateLogoAndNameOutput :=
  (r <- generate P (prompt input) ;;
   match r with
   | Some m => ret {| integratedAssetDataUri := url m |}
   | None => throw (lit "TypeError")
   end)%js.

Definition integrateLogoAndName (P : Platform)
  (input : IntegrateLogoAndNameInput) : M IntegrateLogoAndNameOutput :=
  integrateLogoAndNameFlow P input.

End IntegrateFlow.

(* ================================================================== *)
(** ** Previews of the selected files ([client.tsx], lines 79-136) *)
(* ================================================================== *)

Module Previews.

(** An object URL is named by its rank among the URLs that
    [URL.createObjectURL] has made. *)
Definition objectURL := N.

(** One file field with its preview, and the object URLs of the browser.
    The three effects of the component (logo, first and second reference
    image) are the same code, each on its own field. *)
Record PreviewState := {
  (** [logoPreview], [referenceImage1Preview], [referenceImage2Preview] *)
  preview : option objectURL;
  (** the cleanup returned by the last run of the effect, which revokes
      this URL; [None] when the run returned no cleanup *)
  cleanup : option objectURL;
  (** how many URLs were created *)
  created : N;
  (** the URLs created and not revoked *)
  live : list objectURL
}.

(** The field as first rendered: no file, no preview. *)
Definition initial : PreviewState :=
  {| preview := None; cleanup := None; created := 0; live := [] |}.

(** [URL.revokeObjectURL(url)] *)
Definition revokeObjectURL (u : objectURL) (s : PreviewState)
  : PreviewState :=
  {| preview := preview s;
     cleanup := cleanup s;
     created := created s;
     live := filter (fun v => negb (N.eqb v u)) (live s) |}.

(** The body of the effect, lines 100-109.  The entries of a [FileList]
    are [File]s, so the test [file instanceof File] holds. *)
Definition effect (files : Validation.FileList) (s : PreviewState)
  : PreviewState :=
  match files with
  | Some (file :: _) =>
      let previewUrl := created s in
      {| preview := Some previewUrl;
         cleanup := Some previewUrl;
         created := (created s + 1)%N;
         live := live s ++ [previewUrl] |}
  | _ =>
      {| preview := None;
         cleanup := None;
         created := created s;
         live := live s |}
  end.

(** The cleanup of the previous run, if it returned one. *)
Definition runCleanup (s : PreviewState) : PreviewState :=
  match cleanup s with
  | Some u => revokeObjectURL u s
  | None => s
  end.

(** [useEffect(..., [files])]: when the watched value changes, the
    cleanup of the previous run is called, then the effect runs. *)
Definition filesChanged (files : Validation.FileList) (s : PreviewState)
  : PreviewState :=
  effect files (runCleanup s).

(** The remove button of a preview: [form.setValue(field, null, ...)]. *)
Definition onRemove (s : PreviewState) : PreviewState :=
  filesChanged None s.

(** The field after the watched value has taken the given values in
    turn. *)
Definition after (changes : list Validation.FileList) : PreviewState :=
  fold_left (fun s files => filesChanged files s) changes initial.

End Previews.

(* ================================================================== *)
(** ** What the page shows ([client.tsx], lines 444-503) *)
(* ================================================================== *)

Module View.

(** The content of the preview card, lines 467-488. *)
Inductive PreviewPane :=
| Generating
| GeneratedAsset (src : jsstring)
| ReadyToCreate.

Definition previewPane (w : World) : PreviewPane :=
  if isLoading w then Generating
  else
    match generatedImage w with
    | Some g => if truthy g then GeneratedAsset g else ReadyToCreate
    | None => ReadyToCreate
    end.

(** [disabled={!generatedImage || isLoading}] of the Download button. *)
Definition downloadDisabled (w : World) : bool :=
  negb (truthy_opt (generatedImage w)) || isLoading w.

(** [disabled={!generatedImage}] of the format selector. *)
Definition formatDisabled (w : World) : bool :=
  negb (truthy_opt (generatedImage w)).

(** [disabled={isLoading}] of the submit button. *)
Definition submitDisabled (w : World) : bool := isLoading w.

End View.

(* ================================================================== *)
(** ** Sessions: what the user does on the page, in order *)
(* ================================================================== *)

Module Session.

Inductive Event :=
| Edit (values : Validation.RawValues)
    (** the fields of the form are changed *)
| ChooseFormat (format : jsstring)
    (** the format selector calls [setDownloadFormat] *)
| Submit (P : Platform)
    (** the form is submitted; the environment answers as [P] *)
| ClickDownload (P : Platform).
    (** the Download button calls [handleDownload] *)

Definition step (w : World) (e : Event) : World :=
  match e with
  | Edit values => Client.exec (setValues values) w
  | ChooseFormat format => Client.exec (setDownloadFormat format) w
  | Submit P => Client.exec (Client.handleSubmit (Client.onSubmit P)) w
  | ClickDownload P => Client.exec (Client.handleDownload P) w
  end.

Definition run (events : list Event) : World :=
  fold_left step events Client.initial.

Definition isSubmit (e : Event) : bool :=
  match e with Submit _ => true | _ => false end.

Definition isClick (e : Event) : bool :=
  match e with ClickDownload _ => true | _ => false end.

End Session.

(* ================================================================== *)
(** ** Further vocabulary and concrete inputs *)
(* ================================================================== *)

(** The toast shown when a result was generated. *)
Definition assetGeneratedToast : Toast :=
  {| variant := None;
     title := lit "Asset Generated!";
     description := lit "Your new marketing asset is ready." |}.

(** A file that passes both checks of the schemas. *)
Definition acceptable (f : Validation.File) : Prop :=
  In (Validation.type f) Validation.ACCEPTED_IMAGE_TYPES
  /\ (Validation.size f <= Validation.MAX_FILE_SIZE)%N.

(** A reference field that passes: no file, or a first file that is
    acceptable. *)
Definition referenceAccepted (files : Validation.FileList) : Prop :=
  unset files
  \/ exists f rest, files = Some (f :: rest) /\ acceptable f.

(** The data URI that [onSubmit] obtains for an optional file field. *)
Definition readsAs (P : Platform) (files : Validation.FileList)
  (uri : option jsstring) : Prop :=
  match Validation.first_file files with
  | Some f => exists u, readAsDataURL P f = Ok u /\ uri = Some u
  | None => uri = None
  end.

(** The request that [onSubmit] builds from the form's values and the
    data URIs read. *)
Definition requestFor (values : Validation.FormValues)
  (logoUri : jsstring) (ref1 ref2 : option jsstring)
  : FlowA.GenerateMarketingAssetTemplatesInput :=
  {| FlowA.businessLogoDataUri := logoUri;
     FlowA.businessName := Validation.businessName values;
     FlowA.assetType := Validation.assetType values;
     FlowA.imageDescription := Validation.imageDescription values;
     FlowA.customText := Validation.customText values;
     FlowA.colorPalette := Validation.colorPalette values;
     FlowA.referenceImage1DataUri := ref1;
     FlowA.referenceImage2DataUri := ref2 |}.

(** A page at rest after a number of submissions and of clicks on
    Download: not loading, no empty result on display, every call to the
    service answered by a toast, at most one toast per submission and one
    download per click. *)
Definition settled (submissions clicks : nat) (w : World) : Prop :=
  isLoading w = false
  /\ generatedImage w <> Some []
  /\ List.length (generateCalls w) <= List.length (toasts w)
  /\ List.length (toasts w) <= submissions
  /\ List.length (downloads w) <= clicks.

(** A preview field in order: the cleanup pending is the one of the URL
    shown, and that URL is the only one alive. *)
Definition tidy (s : Previews.PreviewState) : Prop :=
  Previews.cleanup s = Previews.preview s
  /\ Previews.live s
     = match Previews.preview s with Some u => [u] | None => [] end
  /\ forall u, Previews.preview s = Some u -> (u < Previews.created s)%N.

Module MoreSamples.

(** A service whose media has an empty URL, and one that throws. *)
Definition withEmptyMedia : Platform :=
  Samples.samplePlatform (Ok (Some {| url := [] |})).

Definition withOutage : Platform :=
  Samples.samplePlatform (Throw (lit "503 Service Unavailable")).

(** A browser whose file reader fails. *)
Definition withBrokenReader : Platform :=
  {| ai_generate := fun _ => Ok (Some {| url := lit "data:image/png;base64,iVBORw0KGgo=" |});
     readAsDataURL := fun _ => Throw (lit "NotReadableError");
     loadImage := fun _ => Some Samples.sampleImage;
     has2dContext := true;
     toDataURL := fun _ mime _ => lit "data:" ++ mime ++ lit ";base64,/9j/4AAQ" |}.

(** A 1x1 image with one opaque pixel. *)
Definition opaqueImage : Canvas.ImageData :=
  {| Canvas.width := 1;
     Canvas.height := 1;
     Canvas.pixel := fun _ _ =>
       {| Canvas.red := 12; Canvas.green := 200; Canvas.blue := 255;
          Canvas.alpha := 255 |} |}.

Definition integrateRequest : IntegrateFlow.IntegrateLogoAndNameInput :=
  {| IntegrateFlow.templateDataUri := lit "data:image/png;base64,VEVNUExBVEU=";
     IntegrateFlow.logoDataUri := lit "data:image/png;base64,TE9HTw==";
     IntegrateFlow.businessName := lit "Acme Bakery" |}.

End MoreSamples.

(* ================================================================== *)
(** ** Strings: comparison and search *)
(* ================================================================== *)

Lemma streq_eq (s t : jsstring) : streq s t = true <-> s = t.
Proof.
  revert t; induction s as [|c s IH]; intros [|d t]; simpl;
    try (split; [discriminate | discriminate]); try tauto.
  rewrite andb_true_iff, N.eqb_eq, IH.
  split; [intros [-> ->]; reflexivity | intros E; injection E; auto].
Qed.

Lemma streq_refl (s : jsstring) : streq s s = true.
Proof. apply streq_eq; reflexivity. Qed.

Lemma includes_In (l : list jsstring) (s : jsstring) :
  includes l s = true <-> In s l.
Proof.
  unfold includes; rewrite existsb_exists; split.
  - intros (x & Hx & E). apply streq_eq in E; subst; assumption.
  - intros H; exists s; split; [assumption | apply streq_refl].
Qed.

Lemma truthy_nonempty (s : jsstring) : truthy s = true <-> s <> [].
Proof. destruct s; simpl; split; congruence. Qed.

Lemma starts_with_app (s t : jsstring) :
  starts_with s t = true <-> exists post, t = s ++ post.
Proof.
  revert t; induction s as [|c s IH]; intros t; simpl.
  - split; [intros _; exists t; reflexivity | reflexivity].
  - destruct t as [|d t].
    + split; [discriminate | intros (post & E); discriminate].
    + rewrite andb_true_iff, N.eqb_eq, IH; split.
      * intros (-> & post & ->); exists post; reflexivity.
      * intros (post & E); injection E as -> ->; split; [reflexivity|].
        exists post; reflexivity.
Qed.

Lemma occursb_sound (s t : jsstring) : occursb s t = true -> occurs_in s t.
Proof.
  induction t as [|d t IH].
  - simpl; rewrite orb_false_r; intros H.
    apply starts_with_app in H as (post & ->).
    exists [], post; reflexivity.
  - cbn [occursb]; rewrite orb_true_iff; intros [H | H].
    + apply starts_with_app in H as (post & ->).
      exists [], post; reflexivity.
    + destruct (IH H) as (pre & post & ->).
      exists (d :: pre), post; reflexivity.
Qed.

Lemma occursb_complete (s t : jsstring) : occurs_in s t -> occursb s t = true.
Proof.
  intros (pre & post & ->).
  induction pre as [|d pre IH].
  - cbn [app]. assert (H : starts_with s (s ++ post) = true)
      by (apply starts_with_app; exists post; reflexivity).
    destruct (s ++ post); cbn [occursb]; rewrite H; reflexivity.
  - cbn [app occursb]. rewrite IH. apply orb_true_r.
Qed.

Lemma occurs_in_iff (s t : jsstring) : occurs_in s t <-> occursb s t = true.
Proof. split; [apply occursb_complete | apply occursb_sound]. Qed.

(* ================================================================== *)
(** ** Validation of files and of the required fields *)
(* ================================================================== *)

Module ValidationFacts.

Import Validation.

Lemma refine_nil (A : Type) (check : A -> bool) (m : jsstring) (a : A) :
  refine check m a = [] <-> check a = true.
Proof. unfold refine; destruct (check a); split; congruence. Qed.

Lemma app_nil_iff (A : Type) (l l' : list A) :
  l ++ l' = [] <-> l = [] /\ l' = [].
Proof.
  split; [apply app_eq_nil | intros [-> ->]; reflexivity].
Qed.

Lemma imageFileSchema_one (f : File) :
  imageFileSchema (Some [f]) = [] <->
  In (type f) ACCEPTED_IMAGE_TYPES /\ (size f <= MAX_FILE_SIZE)%N.
Proof.
  unfold imageFileSchema.
  rewrite app_nil_iff, !refine_nil; cbn [no_files List.length Nat.eqb orb].
  unfold size_ok, type_ok; cbn [first_file].
  rewrite includes_In, N.leb_le; tauto.
Qed.

Lemma logoSchema_nil (files : FileList) :
  logoSchema files = [] <->
  exists f, files = Some [f] /\
            In (type f) ACCEPTED_IMAGE_TYPES /\ (size f <= MAX_FILE_SIZE)%N.
Proof.
  unfold logoSchema.
  rewrite !app_nil_iff, !refine_nil.
  unfold one_file, size_ok, type_ok.
  destruct files as [[|f [|g l]]|]; cbn [first_file List.length Nat.eqb].
  - split; [intros (? & ? & ?); discriminate | intros (f & E & _); discriminate].
  - rewrite includes_In, N.leb_le; split.
    + intros (_ & Hs & Ht); exists f; auto.
    + intros (f' & E & Ht & Hs); injection E as <-; auto.
  - split; [intros (? & _); discriminate | intros (f' & E & _); discriminate].
  - split; [intros (? & _); discriminate | intros (f' & E & _); discriminate].
Qed.

Lemma string_min_nil (n : nat) (m : jsstring) (v : option jsstring) :
  string_min n m v = [] <-> exists s, v = Some s /\ n <= List.length s.
Proof.
  unfold string_min; destruct v as [s|].
  - destruct (Nat.ltb_spec (List.length s) n); split.
    + discriminate.
    + intros (s' & E & Hle); injection E as <-; lia.
    + intros _; exists s; split; [reflexivity | lia].
    + reflexivity.
  - split; [discriminate | intros (s & E & _); discriminate].
Qed.

(** [formSchema] succeeds exactly when no field raises an issue. *)
Lemma formSchema_inl (v : RawValues) (parsed : FormValues) :
  formSchema v = inl parsed -> formIssues v = [].
Proof.
  unfold formSchema; destruct (formIssues v); [reflexivity|].
  destruct (raw_businessName v), (raw_assetType v), (raw_imageDescription v);
    discriminate.
Qed.

Lemma formSchema_inr (v : RawValues) :
  formIssues v <> [] -> formSchema v = inr (formIssues v).
Proof.
  unfold formSchema; destruct (formIssues v) as [|i l]; [congruence|].
  destruct (raw_businessName v), (raw_assetType v), (raw_imageDescription v);
    reflexivity.
Qed.

Lemma formSchema_rejects (v : RawValues) :
  formIssues v <> [] ->
  exists issues, issues <> [] /\ formSchema v = inr issues.
Proof.
  intros H; exists (formIssues v); split; [assumption|].
  apply formSchema_inr; assumption.
Qed.

Lemma formIssues_nil (v : RawValues) :
  formIssues v = [] <->
  logoSchema (raw_logo v) = []
  /\ string_min 2 (lit "Business name must be at least 2 characters.")
       (raw_businessName v) = []
  /\ string_min 1 (lit "Please select an asset type.") (raw_assetType v) = []
  /\ string_min 1 (lit "Image description is required.")
       (raw_imageDescription v) = []
  /\ imageFileSchema (raw_referenceImage1 v) = []
  /\ imageFileSchema (raw_referenceImage2 v) = [].
Proof. unfold formIssues; rewrite !app_nil_iff; tauto. Qed.

End ValidationFacts.

(* ================================================================== *)
(** ** Submission of an invalid form *)
(* ================================================================== *)

Module SubmitFacts.

Import Validation Client ValidationFacts.

Lemma handleSubmit_invalid (k : FormValues -> M unit) (w : World)
  (issues : list issue) :
  formSchema (formValues w) = inr issues ->
  handleSubmit k w = setErrors (fieldErrors (formValues w)) w.
Proof.
  intros H; unfold handleSubmit, bind, get; rewrite H; reflexivity.
Qed.

(** The errors kept, field by field. *)
Lemma fieldErrors_eq (v : RawValues) :
  fieldErrors v
  = firstn 1 (logoSchema (raw_logo v))
    ++ firstn 1 (string_min 2
                   (lit "Business name must be at least 2 characters.")
                   (raw_businessName v))
    ++ firstn 1 (string_min 1 (lit "Please select an asset type.")
                   (raw_assetType v))
    ++ firstn 1 (string_min 1 (lit "Image description is required.")
                   (raw_imageDescription v))
    ++ firstn 1 (imageFileSchema (raw_referenceImage1 v))
    ++ firstn 1 (imageFileSchema (raw_referenceImage2 v)).
Proof.
  unfold fieldErrors, fieldIssues; cbn [flat_map].
  rewrite app_nil_r; reflexivity.
Qed.

Lemma first_issue_In (m : issue) (l : list issue) :
  In m (firstn 1 l) -> In m l.
Proof. destruct l as [|x l]; cbn; tauto. Qed.

Lemma first_issue_nil (l : list issue) : firstn 1 l = [] <-> l = [].
Proof. destruct l; cbn; split; congruence. Qed.

Lemma first_issue_length (l : list issue) : List.length (firstn 1 l) <= 1.
Proof. destruct l; cbn; lia. Qed.

(** Every error kept is an issue that [formSchema] raised. *)
Lemma fieldErrors_incl (v : RawValues) (m : issue) :
  In m (fieldErrors v) -> In m (formIssues v).
Proof.
  rewrite fieldErrors_eq; unfold formIssues; rewrite !in_app_iff.
  intros H; repeat destruct H as [H | H];
    apply first_issue_In in H; tauto.
Qed.

(** Some error is kept exactly when some issue was raised. *)
Lemma fieldErrors_nil (v : RawValues) :
  fieldErrors v = [] <-> formIssues v = [].
Proof.
  rewrite fieldErrors_eq; unfold formIssues.
  rewrite !app_nil_iff, !first_issue_nil; tauto.
Qed.

(** One error is kept for each field that failed. *)
Lemma fieldErrors_length (v : RawValues) :
  List.length (fieldErrors v)
  = List.length (filter failed (fieldIssues v)).
Proof.
  unfold fieldErrors.
  induction (fieldIssues v) as [|issues rest IH]; [reflexivity|].
  cbn [flat_map filter]; rewrite length_app, IH.
  destruct issues; reflexivity.
Qed.

(** The error of each required field that is empty. *)
Lemma fieldErrors_required (v : RawValues) :
  (unset (raw_logo v) -> In (lit "Logo is required.") (fieldErrors v))
  /\ (raw_businessName v = Some [] ->
      In (lit "Business name must be at least 2 characters.")
        (fieldErrors v))
  /\ (raw_assetType v = Some [] ->
      In (lit "Please select an asset type.") (fieldErrors v))
  /\ (raw_imageDescription v = Some [] ->
      In (lit "Image description is required.") (fieldErrors v)).
Proof.
  rewrite fieldErrors_eq; repeat split; intros H; rewrite !in_app_iff.
  - left; destruct H as [-> | ->]; left; reflexivity.
  - right; left; rewrite H; left; reflexivity.
  - right; right; left; rewrite H; left; reflexivity.
  - right; right; right; left; rewrite H; left; reflexivity.
Qed.

Lemma handleSubmit_valid (k : FormValues -> M unit) (w : World)
  (parsed : FormValues) :
  formSchema (formValues w) = inl parsed ->
  handleSubmit k w = bind (setErrors []) (fun _ => k parsed) w.
Proof.
  intros H; unfold handleSubmit, bind at 1, get; rewrite H; reflexivity.
Qed.

Lemma blank_string_min (n : nat) (m : jsstring) (v : option jsstring) :
  1 <= n -> blank v -> string_min n m v <> [].
Proof.
  intros Hn [-> | ->] H; apply string_min_nil in H as (s & E & Hl);
    [discriminate | injection E as <-; simpl in Hl; lia].
Qed.

Lemma unset_logoSchema (files : FileList) :
  unset files -> logoSchema files <> [].
Proof.
  intros [-> | ->] H; apply logoSchema_nil in H as (f & E & _); discriminate.
Qed.

End SubmitFacts.

(* ================================================================== *)
(** ** Properties of client validation *)
(* ================================================================== *)

(** C8. A selected file passes validation exactly when its MIME type is one
    of image/jpeg, image/jpg, image/png, image/webp and its size is at most
    5*1024*1024 = 5242880 bytes; this holds for a reference image and for
    the logo alike, and a form holding a selected file that violates either
    condition is rejected by [formSchema]. *)
Theorem file_validation_allow_list_and_ceiling :
  Validation.MAX_FILE_SIZE = 5242880%N
  /\ (forall f : Validation.File,
        let accepted :=
          (Validation.type f = lit "image/jpeg"
           \/ Validation.type f = lit "image/jpg"
           \/ Validation.type f = lit "image/png"
           \/ Validation.type f = lit "image/webp")
          /\ (Validation.size f <= 5 * 1024 * 1024)%N in
        (Validation.imageFileSchema (Some [f]) = [] <-> accepted)
        /\ (Validation.logoSchema (Some [f]) = [] <-> accepted)
        /\ (~ accepted ->
            forall v : Validation.RawValues,
              Validation.raw_logo v = Some [f]
              \/ Validation.raw_referenceImage1 v = Some [f]
              \/ Validation.raw_referenceImage2 v = Some [f] ->
              exists issues,
                issues <> [] /\ Validation.formSchema v = inr issues)).
Proof.
  split; [reflexivity|].
  intros f accepted.
  assert (Hacc : accepted <->
            In (Validation.type f) Validation.ACCEPTED_IMAGE_TYPES
            /\ (Validation.size f <= Validation.MAX_FILE_SIZE)%N).
  { unfold accepted, Validation.ACCEPTED_IMAGE_TYPES; simpl In.
    change Validation.MAX_FILE_SIZE with (5 * 1024 * 1024)%N.
    split.
    - intros [[H | [H | [H | H]]] Hs]; split; auto.
    - intros [[H | [H | [H | [H | []]]]] Hs]; split; auto. }
  assert (Himg : Validation.imageFileSchema (Some [f]) = [] <-> accepted)
    by (rewrite Hacc; apply ValidationFacts.imageFileSchema_one).
  assert (Hlogo : Validation.logoSchema (Some [f]) = [] <-> accepted).
  { rewrite Hacc, ValidationFacts.logoSchema_nil; split.
    - intros (f' & E & H); injection E as <-; exact H.
    - intros H; exists f; split; [reflexivity | exact H]. }
  split; [exact Himg | split; [exact Hlogo|]].
  intros Hno v Hsel.
  apply ValidationFacts.formSchema_rejects.
  rewrite ValidationFacts.formIssues_nil.
  intros (Hl & _ & _ & _ & H1 & H2).
  destruct Hsel as [E | [E | E]]; rewrite E in *; tauto.
Qed.

(** C10. A business name shorter than 2 characters is rejected with the
    message of the length check, whatever the other fields hold; this is
    stricter than requiring a non-empty name, since a form that is valid
    with a 2-character name is rejected, without any call to the service,
    when the name is a single character. *)
Theorem businessName_needs_two_characters :
  (forall (v : Validation.RawValues) (s : jsstring),
      Validation.raw_businessName v = Some s ->
      List.length s < 2 ->
      exists issues,
        Validation.formSchema v = inr issues
        /\ In (lit "Business name must be at least 2 characters.") issues)
  /\ (exists parsed,
        Validation.formSchema (Samples.sampleValues (lit "AB"))
        = inl parsed)
  /\ lit "A" <> []
  /\ Validation.formSchema (Samples.sampleValues (lit "A"))
     = inr [lit "Business name must be at least 2 characters."]
  /\ (forall P : Platform,
        let w := Client.exec (setValues (Samples.sampleValues (lit "A")))
                   Client.initial in
        let w' := Client.exec (Client.handleSubmit (Client.onSubmit P)) w in
        generateCalls w' = []
        /\ formErrors w'
           = [lit "Business name must be at least 2 characters."]).
Proof.
  split; [|split; [|split; [|split]]].
  - intros v s E Hlen.
    assert (Hin : In (lit "Business name must be at least 2 characters.")
                    (Validation.formIssues v)).
    { unfold Validation.formIssues.
      apply in_or_app; right; apply in_or_app; left.
      rewrite E; unfold Validation.string_min.
      destruct (Nat.ltb_spec (List.length s) 2); [left; reflexivity | lia]. }
    exists (Validation.formIssues v); split; [|exact Hin].
    apply ValidationFacts.formSchema_inr.
    intros Hnil; rewrite Hnil in Hin; exact Hin.
  - eexists; vm_compute; reflexivity.
  - discriminate.
  - vm_compute; reflexivity.
  - intros P; split; vm_compute; reflexivity.
Qed.

(** C2. When the logo, the business name, the asset type or the image
    description is missing or empty, [formSchema] rejects the form and
    submitting it only records the errors of the fields, one for each field
    that failed and each an issue that [formSchema] raised; an empty
    required field shows its own message.  The submit handler does not run: the
    service is not called, no toast is shown and the displayed result and
    the loading flag are untouched. *)
Theorem missing_required_field_rejected_before_call
  (P : Platform) (w : World) :
  unset (Validation.raw_logo (formValues w))
  \/ blank (Validation.raw_businessName (formValues w))
  \/ blank (Validation.raw_assetType (formValues w))
  \/ blank (Validation.raw_imageDescription (formValues w)) ->
  exists issues,
    issues <> []
    /\ Validation.formSchema (formValues w) = inr issues
    /\ let w' := Client.exec (Client.handleSubmit (Client.onSubmit P)) w in
       formErrors w' <> []
       /\ (forall m, In m (formErrors w') -> In m issues)
       /\ List.length (formErrors w')
          = List.length
              (filter failed (Validation.fieldIssues (formValues w)))
       /\ (unset (Validation.raw_logo (formValues w)) ->
           In (lit "Logo is required.") (formErrors w'))
       /\ (Validation.raw_businessName (formValues w) = Some [] ->
           In (lit "Business name must be at least 2 characters.")
             (formErrors w'))
       /\ (Validation.raw_assetType (formValues w) = Some [] ->
           In (lit "Please select an asset type.") (formErrors w'))
       /\ (Validation.raw_imageDescription (formValues w) = Some [] ->
           In (lit "Image description is required.") (formErrors w'))
       /\ generateCalls w' = generateCalls w
       /\ toasts w' = toasts w
       /\ generatedImage w' = generatedImage w
       /\ isLoading w' = isLoading w.
Proof.
  intros H.
  assert (Hiss : Validation.formIssues (formValues w) <> []).
  { rewrite ValidationFacts.formIssues_nil.
    intros (Hl & Hb & Ha & Hd & _).
    destruct H as [H | [H | [H | H]]].
    - exact (SubmitFacts.unset_logoSchema H Hl).
    - refine (SubmitFacts.blank_string_min _ _ H Hb); lia.
    - refine (SubmitFacts.blank_string_min _ _ H Ha); lia.
    - refine (SubmitFacts.blank_string_min _ _ H Hd); lia. }
  exists (Validation.formIssues (formValues w)).
  pose proof (ValidationFacts.formSchema_inr _ Hiss) as Hinr.
  split; [exact Hiss | split; [exact Hinr|]].
  unfold Client.exec.
  rewrite (SubmitFacts.handleSubmit_invalid _ _ Hinr).
  cbn [setErrors modify snd formErrors generateCalls toasts generatedImage
       isLoading].
  destruct (SubmitFacts.fieldErrors_required (formValues w))
    as (Hlogo & Hname & Hkind & Habout).
  split; [|split; [|split; [|repeat split; assumption]]].
  - intros E; apply SubmitFacts.fieldErrors_nil in E; exact (Hiss E).
  - intros m; apply SubmitFacts.fieldErrors_incl.
  - apply SubmitFacts.fieldErrors_length.
Qed.

(** The form as first rendered has neither logo nor business name. *)
Lemma missing_required_field_rejected_before_call_witness :
  exists issues,
    issues <> []
    /\ Validation.formSchema (formValues Client.initial) = inr issues
    /\ let w := Client.initial in
       let w' := Client.exec
                   (Client.handleSubmit (Client.onSubmit Samples.withMedia))
                   w in
       formErrors w' <> []
       /\ (forall m, In m (formErrors w') -> In m issues)
       /\ List.length (formErrors w')
          = List.length
              (filter failed (Validation.fieldIssues (formValues w)))
       /\ (unset (Validation.raw_logo (formValues w)) ->
           In (lit "Logo is required.") (formErrors w'))
       /\ (Validation.raw_businessName (formValues w) = Some [] ->
           In (lit "Business name must be at least 2 characters.")
             (formErrors w'))
       /\ (Validation.raw_assetType (formValues w) = Some [] ->
           In (lit "Please select an asset type.") (formErrors w'))
       /\ (Validation.raw_imageDescription (formValues w) = Some [] ->
           In (lit "Image description is required.") (formErrors w'))
       /\ generateCalls w' = generateCalls w
       /\ toasts w' = toasts w
       /\ generatedImage w' = generatedImage w
       /\ isLoading w' = isLoading w.
Proof.
  apply (missing_required_field_rejected_before_call
           Samples.withMedia Client.initial).
  left; left; reflexivity.
Defined.

(* ================================================================== *)
(** ** The shape of the assembled prompts *)
(* ================================================================== *)

Module PromptFacts.

Lemma occurs_in_here (s post : jsstring) : occurs_in s (s ++ post).
Proof. exists [], post; reflexivity. Qed.

Lemma occurs_in_app_r (s p t : jsstring) :
  occurs_in s t -> occurs_in s (p ++ t).
Proof.
  intros (pre & post & ->); exists (p ++ pre), post.
  rewrite app_assoc; reflexivity.
Qed.

Lemma not_occurs (s t : jsstring) : occursb s t = false -> ~ occurs_in s t.
Proof. intros H Hin; apply occursb_complete in Hin; congruence. Qed.

Lemma or_else_Some_nil (s : jsstring) : or_else (Some s) [] = s.
Proof. destruct s; reflexivity. Qed.

Lemma or_else_blank (v : option jsstring) : blank v -> or_else v [] = [].
Proof. intros [-> | ->]; reflexivity. Qed.

Lemma provided_blank (v : option jsstring) : blank v -> provided v = [].
Proof. intros [-> | ->]; reflexivity. Qed.

Lemma push_reference_segments (label : jsstring) (uri : option jsstring)
  (prompt : list Part) :
  FlowA.push_reference label uri prompt
  = prompt ++ referenceSegments label uri.
Proof.
  unfold FlowA.push_reference, referenceSegments, provided.
  destruct uri as [u|]; [destruct (truthy u)|]; simpl;
    rewrite ?app_nil_r; reflexivity.
Qed.

(** The first version's prompt: the instructions, the logo, then a label
    and an image for each reference provided. *)
Lemma promptA_shape (a : FlowA.GenerateMarketingAssetTemplatesInput) :
  FlowA.prompt a
  = [text (FlowA.promptText a); media (FlowA.businessLogoDataUri a)]
    ++ referenceSegments (lit "Reference Image 1:")
         (FlowA.referenceImage1DataUri a)
    ++ referenceSegments (lit "Reference Image 2:")
         (FlowA.referenceImage2DataUri a).
Proof.
  unfold FlowA.prompt; rewrite !push_reference_segments, <- app_assoc.
  reflexivity.
Qed.

Lemma labelled_pairs (label : jsstring) (us : list jsstring)
  (rest : list Part) :
  labelled (flat_map (fun u => [text label; media u]) us ++ rest)
  = labelled rest.
Proof. induction us as [|u us IH]; simpl; auto. Qed.

Lemma mediaUrls_pairs (label : jsstring) (us : list jsstring)
  (rest : list Part) :
  mediaUrls (flat_map (fun u => [text label; media u]) us ++ rest)
  = us ++ mediaUrls rest.
Proof. induction us as [|u us IH]; simpl; congruence. Qed.

Lemma texts_pairs (label : jsstring) (us : list jsstring)
  (rest : list Part) :
  texts (flat_map (fun u => [text label; media u]) us ++ rest)
  = map (fun _ => label) us ++ texts rest.
Proof. induction us as [|u us IH]; simpl; congruence. Qed.

(** The instruction text spans several lines, so it is not a label. *)
Lemma promptText_not_label (a : FlowA.GenerateMarketingAssetTemplatesInput) :
  isLabel (FlowA.promptText a) = false.
Proof.
  unfold isLabel, FlowA.promptText.
  rewrite existsb_app, (existsb_app _ nl).
  change (existsb (N.eqb 10) nl) with true.
  cbn [orb]; rewrite orb_true_r; reflexivity.
Qed.

Lemma suffix_refl (s : jsstring) : exists pre, s = pre ++ s.
Proof. exists []; reflexivity. Qed.

Lemma suffix_app (p t s : jsstring) :
  (exists pre, t = pre ++ s) -> exists pre, p ++ t = pre ++ s.
Proof. intros (pre & ->); exists (p ++ pre); apply app_assoc. Qed.

(** The text ends with the given lines: drop leading pieces until what
    remains is the suffix. *)
Ltac find_suffix :=
  repeat first [ apply suffix_refl | apply suffix_app ].

(** The text holds the given piece: drop leading pieces until it is at
    the front. *)
Ltac find_piece :=
  repeat first [ apply occurs_in_here | apply occurs_in_app_r ].

End PromptFacts.

(* ================================================================== *)
(** ** Properties of prompt assembly *)
(* ================================================================== *)

(** C5, as stated, fails: the text segment that precedes the logo is not
    a label but the whole instruction text, several lines long; in the
    prompt of a request without reference images no text segment is a
    label. *)
Lemma logo_follows_the_instruction_text :
  let request := Samples.bareRequest in
  let prompt := FlowA.prompt request in
  In (media (FlowA.businessLogoDataUri request)) prompt
  /\ label_of (FlowA.businessLogoDataUri request) prompt
     = Some (FlowA.promptText request)
  /\ isLabel (FlowA.promptText request) = false
  /\ occurs_in FlowA.referenceInstruction (FlowA.promptText request)
  /\ (forall s, In s (texts prompt) -> isLabel s = false).
Proof.
  split; [right; left; reflexivity|].
  split; [vm_compute; reflexivity|].
  split; [vm_compute; reflexivity|].
  split; [apply occursb_sound; vm_compute; reflexivity|].
  intros s Hin; vm_compute in Hin.
  destruct Hin as [<- | []]; vm_compute; reflexivity.
Qed.

(** C5, amended. For every request the assembled prompt is a sequence of
    pairs, a text segment followed by an image.  The first pair is the
    instruction text (it opens with the designer sentence, holds the
    description and the reference instruction, ends with the colour palette
    line, and is not a label) and the logo; then, for each reference image
    provided and in their order, comes its label ("Reference Image 1:",
    "Reference Image 2:") and the image. *)
Theorem prompt_is_instructions_logo_then_labelled_references
  (input : FlowA.GenerateMarketingAssetTemplatesInput) :
  let ref1 := provided (FlowA.referenceImage1DataUri input) in
  let ref2 := provided (FlowA.referenceImage2DataUri input) in
  labelled (FlowA.prompt input) = true
  /\ mediaUrls (FlowA.prompt input)
     = FlowA.businessLogoDataUri input :: ref1 ++ ref2
  /\ texts (FlowA.prompt input)
     = FlowA.promptText input
       :: map (fun _ => lit "Reference Image 1:") ref1
       ++ map (fun _ => lit "Reference Image 2:") ref2
  /\ FlowA.prompt input
     = [text (FlowA.promptText input);
        media (FlowA.businessLogoDataUri input)]
       ++ flat_map (fun u => [text (lit "Reference Image 1:"); media u]) ref1
       ++ flat_map (fun u => [text (lit "Reference Image 2:"); media u]) ref2
  /\ (exists rest,
        FlowA.promptText input
        = lit "You are a professional graphic designer AI assistant that creates high-quality, modern, and creative marketing assets for businesses."
          ++ rest)
  /\ occurs_in (FlowA.imageDescription input) (FlowA.promptText input)
  /\ occurs_in FlowA.referenceInstruction (FlowA.promptText input)
  /\ (exists pre,
        FlowA.promptText input
        = pre ++ lit "Color Palette: "
              ++ or_else (FlowA.colorPalette input) [] ++ nl)
  /\ isLabel (FlowA.promptText input) = false
  /\ isLabel (lit "Reference Image 1:") = true
  /\ isLabel (lit "Reference Image 2:") = true.
Proof.
  intros ref1 ref2.
  assert (Hshape :
    labelled (FlowA.prompt input) = true
    /\ mediaUrls (FlowA.prompt input)
       = FlowA.businessLogoDataUri input :: ref1 ++ ref2
    /\ texts (FlowA.prompt input)
       = FlowA.promptText input
         :: map (fun _ => lit "Reference Image 1:") ref1
         ++ map (fun _ => lit "Reference Image 2:") ref2
    /\ FlowA.prompt input
       = [text (FlowA.promptText input);
          media (FlowA.businessLogoDataUri input)]
         ++ flat_map (fun u => [text (lit "Reference Image 1:"); media u]) ref1
         ++ flat_map (fun u => [text (lit "Reference Image 2:"); media u])
              ref2).
  { rewrite PromptFacts.promptA_shape; unfold referenceSegments.
    fold ref1 ref2.
    cbn [app labelled mediaUrls texts].
    rewrite <- (app_nil_r (flat_map _ ref2)).
    rewrite !PromptFacts.labelled_pairs, !PromptFacts.mediaUrls_pairs,
      !PromptFacts.texts_pairs.
    cbn [labelled mediaUrls texts]; rewrite !app_nil_r.
    repeat split. }
  destruct Hshape as (H1 & H2 & H3 & H4).
  repeat (split; [assumption|]).
  split; [eexists; reflexivity|].
  split; [unfold FlowA.promptText; PromptFacts.find_piece|].
  split; [unfold FlowA.promptText; PromptFacts.find_piece|].
  split; [unfold FlowA.promptText; PromptFacts.find_suffix|].
  split; [apply PromptFacts.promptText_not_label|].
  split; reflexivity.
Qed.

(** C3, as stated, fails: with the custom text and the colour palette both
    absent, the instruction text sent with the request still holds the
    labels of these two fields. *)
Lemma absent_fields_keep_their_labels :
  FlowA.customText Samples.bareRequest = None
  /\ FlowA.colorPalette Samples.bareRequest = None
  /\ In (text (FlowA.promptText Samples.bareRequest))
        (FlowA.prompt Samples.bareRequest)
  /\ occurs_in (lit "Custom Text:") (FlowA.promptText Samples.bareRequest)
  /\ occurs_in (lit "Color Palette:") (FlowA.promptText Samples.bareRequest).
Proof.
  repeat split.
  - left; reflexivity.
  - apply occursb_sound; vm_compute; reflexivity.
  - apply occursb_sound; vm_compute; reflexivity.
Qed.

(** C3, amended. In the prompt of the first version of the flow, an
    absent (or empty) custom text or colour palette contributes the empty
    string: the line of the field stays in the text, as its label with
    nothing after it.  An absent (or empty) reference image contributes
    neither a label nor an image to the prompt. *)
Theorem absent_optional_fields_leave_empty_lines
  (a : FlowA.GenerateMarketingAssetTemplatesInput) :
  (blank (FlowA.customText a) ->
   exists pre,
     FlowA.promptText a
     = pre ++ lit "Custom Text: " ++ nl
           ++ lit "Color Palette: " ++ or_else (FlowA.colorPalette a) []
           ++ nl)
  /\ (blank (FlowA.colorPalette a) ->
      exists pre,
        FlowA.promptText a = pre ++ lit "Color Palette: " ++ nl)
  /\ (blank (FlowA.referenceImage1DataUri a) ->
      FlowA.prompt a
      = [text (FlowA.promptText a); media (FlowA.businessLogoDataUri a)]
        ++ referenceSegments (lit "Reference Image 2:")
             (FlowA.referenceImage2DataUri a))
  /\ (blank (FlowA.referenceImage2DataUri a) ->
      FlowA.prompt a
      = [text (FlowA.promptText a); media (FlowA.businessLogoDataUri a)]
        ++ referenceSegments (lit "Reference Image 1:")
             (FlowA.referenceImage1DataUri a)).
Proof.
  repeat split.
  - intros H; unfold FlowA.promptText.
    rewrite (PromptFacts.or_else_blank H), app_nil_l.
    PromptFacts.find_suffix.
  - intros H; unfold FlowA.promptText.
    rewrite (PromptFacts.or_else_blank H), app_nil_l.
    PromptFacts.find_suffix.
  - intros H; rewrite PromptFacts.promptA_shape.
    unfold referenceSegments at 1.
    rewrite (PromptFacts.provided_blank H); reflexivity.
  - intros H; rewrite PromptFacts.promptA_shape.
    unfold referenceSegments at 2.
    rewrite (PromptFacts.provided_blank H); cbn [flat_map].
    rewrite app_nil_r; reflexivity.
Qed.

(** C6. The two versions of the flow are not equivalent.  The first
    version's schema declares the image description and the two reference
    images, and its prompt holds the description in the text and every
    provided reference image.  The second version's schema is the first's
    without these three keys and its prompt template names none of them, so
    requests that differ only there are the same input for it; whatever the
    second version makes of its input, it cannot be the first version's
    prompt for every request. *)
Theorem flow_versions_not_equivalent :
  (forall a : FlowA.GenerateMarketingAssetTemplatesInput,
      occurs_in (FlowA.imageDescription a) (FlowA.promptText a)
      /\ In (text (FlowA.promptText a)) (FlowA.prompt a)
      /\ mediaUrls (FlowA.prompt a)
         = FlowA.businessLogoDataUri a
           :: provided (FlowA.referenceImage1DataUri a)
           ++ provided (FlowA.referenceImage2DataUri a))
  /\ FlowB.GenerateMarketingAssetTemplatesInputSchema
     = filter
         (fun key =>
            negb (existsb (String.eqb (fst key))
                    ["imageDescription"%string;
                     "referenceImage1DataUri"%string;
                     "referenceImage2DataUri"%string]))
         FlowA.GenerateMarketingAssetTemplatesInputSchema
  /\ List.length FlowA.GenerateMarketingAssetTemplatesInputSchema
     = 3 + List.length FlowB.GenerateMarketingAssetTemplatesInputSchema
  /\ ~ occurs_in (lit "imageDescription") FlowB.promptSource
  /\ ~ occurs_in (lit "referenceImage") FlowB.promptSource
  /\ (forall a a' : FlowA.GenerateMarketingAssetTemplatesInput,
        FlowA.businessLogoDataUri a = FlowA.businessLogoDataUri a' ->
        FlowA.businessName a = FlowA.businessName a' ->
        FlowA.assetType a = FlowA.assetType a' ->
        FlowA.customText a = FlowA.customText a' ->
        FlowA.colorPalette a = FlowA.colorPalette a' ->
        FlowB.ofInputA a = FlowB.ofInputA a')
  /\ (FlowB.ofInputA Samples.bareRequest = FlowB.ofInputA Samples.fullRequest
      /\ FlowA.prompt Samples.bareRequest <> FlowA.prompt Samples.fullRequest)
  /\ (forall sent : FlowB.GenerateMarketingAssetTemplatesInput -> list Part,
        ~ (forall a, sent (FlowB.ofInputA a) = FlowA.prompt a)).
Proof.
  assert (Hdiff : FlowA.prompt Samples.bareRequest
                  <> FlowA.prompt Samples.fullRequest).
  { intros E; apply (f_equal (@List.length Part)) in E.
    vm_compute in E; discriminate E. }
  split; [|split; [|split; [|split; [|split; [|split; [|split]]]]]].
  - intros a; split; [|split].
    + unfold FlowA.promptText; PromptFacts.find_piece.
    + rewrite PromptFacts.promptA_shape; left; reflexivity.
    + rewrite PromptFacts.promptA_shape; unfold referenceSegments.
      cbn [app mediaUrls].
      rewrite <- (app_nil_r (flat_map _ (provided (FlowA.referenceImage2DataUri a)))).
      rewrite !PromptFacts.mediaUrls_pairs; cbn [mediaUrls].
      rewrite app_nil_r; reflexivity.
  - reflexivity.
  - reflexivity.
  - apply PromptFacts.not_occurs; vm_compute; reflexivity.
  - apply PromptFacts.not_occurs; vm_compute; reflexivity.
  - intros a a' Hl Hn Ht Hc Hp.
    unfold FlowB.ofInputA; rewrite Hl, Hn, Ht, Hc, Hp; reflexivity.
  - split; [reflexivity | exact Hdiff].
  - intros sent H; apply Hdiff.
    rewrite <- (H Samples.bareRequest), <- (H Samples.fullRequest).
    reflexivity.
Qed.

(** C7, as stated, fails: the prompt template of the second version,
    rendered on a request, says nothing about reference images,
    inspiration or copying. *)
Lemma second_version_has_no_reference_instruction :
  let prompt := FlowB.prompt (FlowB.ofInputA Samples.bareRequest) in
  texts prompt <> []
  /\ forall s, In s (texts prompt) ->
               ~ occurs_in FlowA.referenceInstruction s
               /\ ~ occurs_in (lit "eference") s
               /\ ~ occurs_in (lit "nspiration") s
               /\ ~ occurs_in (lit "opy") s.
Proof.
  split; [vm_compute; discriminate|].
  intros s Hin; vm_compute in Hin.
  destruct Hin as [<- | [<- | []]]; repeat split;
    apply PromptFacts.not_occurs; vm_compute; reflexivity.
Qed.

(** C7, amended. Every prompt assembled by the version of the flow that
    accepts reference images opens with a text segment that holds the
    instruction to use provided reference images for general inspiration
    only and not to copy any text or graphics from them. *)
Theorem prompt_tells_inspiration_only
  (input : FlowA.GenerateMarketingAssetTemplatesInput) :
  FlowA.referenceInstruction
  = lit "If reference images are provided, use them for general inspiration only. Do not copy any text or graphics from the reference images."
  /\ hd_error (FlowA.prompt input) = Some (text (FlowA.promptText input))
  /\ occurs_in FlowA.referenceInstruction (FlowA.promptText input).
Proof.
  split; [reflexivity | split].
  - rewrite PromptFacts.promptA_shape; reflexivity.
  - unfold FlowA.promptText; PromptFacts.find_piece.
Qed.

(* ================================================================== *)
(** ** Submission and the generation call *)
(* ================================================================== *)

Module OnSubmitFacts.

(** Unfolds the monadic operations of [onSubmit] and the projections of
    the world. *)
Ltac run :=
  cbv beta iota zeta delta
    [Client.exec Client.onSubmit try_catch_finally bind ret throw lift
     modify get setIsLoading setGeneratedImage toast console_error generate
     Client.fileToDataUri Client.optionalDataUri
     Actions.generateMarketingAssetTemplates
     FlowA.generateMarketingAssetTemplates
     FlowA.generateMarketingAssetTemplatesFlow FlowA.assetDataUri snd fst
     generatedImage isLoading toasts generateCalls downloadFormat
     formValues formErrors consoleErrors downloads].

(** Splits on the next answer of the environment that [onSubmit] waits
    for. *)
Ltac branch :=
  match goal with
  | |- context [match Validation.first_file ?x with _ => _ end] =>
      destruct (Validation.first_file x) eqn:?
  | |- context [match readAsDataURL ?P ?f with _ => _ end] =>
      destruct (readAsDataURL P f) eqn:?
  | |- context [match ai_generate ?P ?p with _ => _ end] =>
      destruct (ai_generate P p) as [[?|]|] eqn:?
  | |- context [if truthy ?u then _ else _] =>
      destruct (truthy u) eqn:?
  end; run.

End OnSubmitFacts.

(** C1, as stated, fails: a result is on display, the form is submitted
    again, the service returns no media, and the displayed result is gone. *)
Lemma failed_generation_clears_previous_result :
  let w := Samples.afterSuccess in
  let w' := Client.exec
              (Client.handleSubmit (Client.onSubmit Samples.withoutMedia)) w in
  generatedImage w = Some (lit "data:image/png;base64,iVBORw0KGgo=")
  /\ generateCalls w' = generateCalls w ++ [FlowA.prompt Samples.sentRequest]
  /\ ai_generate Samples.withoutMedia (FlowA.prompt Samples.sentRequest)
     = Ok None
  /\ generatedImage w' = None
  /\ generatedImage w' <> generatedImage w.
Proof.
  repeat split; try (vm_compute; reflexivity).
  vm_compute; discriminate.
Qed.

(** C1, amended. When the generation call of a submission returns no
    media, the destructive toast "Generation Failed" is shown, the loading
    flag is cleared, and no result is displayed: the result shown before the
    submission was cleared when the submission started and stays cleared. *)
Theorem no_media_fails_and_clears_result
  (P : Platform) (w : World) (values : Validation.FormValues)
  (prompt : list Part) :
  let w' := Client.exec (Client.onSubmit P values) w in
  generateCalls w' = generateCalls w ++ [prompt] ->
  ai_generate P prompt = Ok None ->
  toasts w' = toasts w ++ [generationFailedToast]
  /\ variant generationFailedToast = Some (lit "destructive")
  /\ generatedImage w' = None
  /\ isLoading w' = false.
Proof.
  intros w'; subst w'; destruct w as [gi il df fv fe ts ce gc dl].
  OnSubmitFacts.run; repeat OnSubmitFacts.branch.
  all: intros Hcalls Hnone; try (repeat split; fail).
  all: apply app_inv_head in Hcalls; injection Hcalls as <-; congruence.
Qed.

Lemma no_media_fails_and_clears_result_witness :
  let w' := Client.exec
              (Client.onSubmit Samples.withoutMedia
                 (Samples.parsedValues (lit "Acme Bakery")))
              Samples.afterSuccess in
  toasts w' = toasts Samples.afterSuccess ++ [generationFailedToast]
  /\ variant generationFailedToast = Some (lit "destructive")
  /\ generatedImage w' = None
  /\ isLoading w' = false.
Proof.
  apply (no_media_fails_and_clears_result
           Samples.withoutMedia Samples.afterSuccess
           (Samples.parsedValues (lit "Acme Bakery"))
           (FlowA.prompt Samples.sentRequest)).
  - vm_compute; reflexivity.
  - reflexivity.
Defined.

(* ================================================================== *)
(** ** Download: the canvas and the saved file *)
(* ================================================================== *)

Module CanvasFacts.

Import Canvas.

Lemma parse_white : parseColor (lit "#FFFFFF") = Some white.
Proof. reflexivity. Qed.

(** Whatever is composited on an opaque pixel, the result is opaque. *)
Lemma over_opaque (s d : RGBA) : alpha d = 255%N -> alpha (over s d) = 255%N.
Proof.
  intros Hd; unfold over; cbn [alpha]; rewrite Hd.
  change (clamp8 255) with 255%N.
  rewrite (N.mul_comm 255), N.div_mul by discriminate.
  unfold clamp8; lia.
Qed.

(** The opaque fill colour on a cleared pixel gives the fill colour. *)
Lemma white_over_transparent : over white transparent = white.
Proof. reflexivity. Qed.

(** A fully transparent pixel leaves the opaque background as it is. *)
Lemma transparent_over_white (s : RGBA) :
  alpha s = 0%N -> over s white = white.
Proof.
  intros Hs; unfold over, white; cbn [alpha red green blue]; rewrite Hs.
  change (clamp8 0) with 0%N; change (clamp8 255) with 255%N.
  rewrite !N.mul_0_r; reflexivity.
Qed.

(** Composition on an opaque pixel gives the pixel drawn. *)
Lemma opaque_over (s d : RGBA) :
  alpha s = 255%N ->
  (red s <= 255)%N -> (green s <= 255)%N ->
  (blue s <= 255)%N ->
  over s d = s.
Proof.
  destruct s as [r g b a]; cbn [alpha red green
                                 blue].
  intros -> Hr Hg Hb; unfold over;
    cbn [alpha red green blue].
  change (clamp8 255) with 255%N.
  change (255 - 255)%N with 0%N.
  rewrite !N.mul_0_r; change (0 / 255)%N with 0%N.
  rewrite !N.add_0_r; change (255 =? 0)%N with false; cbv iota.
  rewrite !N.div_mul by discriminate.
  unfold clamp8; f_equal; lia.
Qed.

Lemma inside_0 (len i : N) : (i < len)%N -> inside 0 len i = true.
Proof.
  intros H; unfold inside; rewrite andb_true_iff, N.leb_le, N.ltb_lt; lia.
Qed.

(** The pixel of the rasterized canvas inside the image: the image's
    pixel composited on white. *)
Lemma rasterize_pixel (img : ImageData) (i j : N) :
  (i < width img)%N -> (j < height img)%N ->
  pixel (Client.rasterize img) i j = over (pixel img i j) white.
Proof.
  intros Hi Hj; unfold Client.rasterize, set_fillStyle.
  rewrite parse_white.
  cbn [drawImage fillRect getContext createCanvas canvas fillStyle pixel
       width height].
  rewrite (inside_0 Hi), (inside_0 Hj); cbn [andb].
  rewrite white_over_transparent, !N.sub_0_r; reflexivity.
Qed.

Lemma rasterize_size (img : ImageData) :
  width (Client.rasterize img) = width img
  /\ height (Client.rasterize img) = height img.
Proof.
  unfold Client.rasterize, set_fillStyle; rewrite parse_white; split;
    reflexivity.
Qed.

Lemma rasterize_opaque (img : ImageData) : opaque (Client.rasterize img).
Proof.
  intros i j; destruct (rasterize_size img) as [-> ->]; intros Hi Hj.
  rewrite (rasterize_pixel _ Hi Hj); apply over_opaque; reflexivity.
Qed.

End CanvasFacts.

Module DownloadFacts.

Import Client.

Lemma downloadWithFormat_effect (uri format : jsstring) (w : World) :
  downloads (exec (downloadWithFormat uri format) w)
  = downloads w
    ++ [{| href := uri;
           download :=
             downloadName (Validation.raw_businessName (formValues w))
               format |}].
Proof. reflexivity. Qed.

Lemma handleDownload_nothing (P : Platform) (w : World) :
  truthy_opt (generatedImage w) = false ->
  exec (handleDownload P) w = w.
Proof.
  intros H; unfold exec, handleDownload, bind, get; rewrite H; reflexivity.
Qed.

Lemma handleDownload_png (P : Platform) (w : World) (g : jsstring) :
  generatedImage w = Some g -> g <> [] ->
  streq (downloadFormat w) (lit "jpeg") = false ->
  exec (handleDownload P) w = exec (downloadWithFormat g (lit "png")) w.
Proof.
  intros Hg Hne Hf; unfold exec, handleDownload, bind at 1 2, get.
  rewrite Hg; cbn [truthy_opt or_else].
  apply truthy_nonempty in Hne; rewrite Hne; cbn [negb].
  rewrite Hf; reflexivity.
Qed.

Lemma handleDownload_jpeg (P : Platform) (w : World) (g : jsstring) :
  generatedImage w = Some g -> g <> [] ->
  streq (downloadFormat w) (lit "jpeg") = true ->
  exec (handleDownload P) w
  = match loadImage P g with
    | Some img =>
        if has2dContext P
        then exec (downloadWithFormat
                     (toDataURL P (rasterize img) (lit "image/jpeg") (9 # 10)%Q)
                     (lit "jpeg")) w
        else w
    | None => w
    end.
Proof.
  intros Hg Hne Hf; unfold exec, handleDownload, bind at 1 2, get.
  rewrite Hg; cbn [truthy_opt or_else].
  apply truthy_nonempty in Hne; rewrite Hne; cbn [negb].
  rewrite Hf.
  destruct (loadImage P g); [destruct (has2dContext P)|]; reflexivity.
Qed.

Lemma not_self_append (A : Type) (l : list A) (x : A) : l <> l ++ [x].
Proof.
  intros E; apply (f_equal (@List.length A)) in E.
  rewrite length_app in E; simpl in E; lia.
Qed.

Lemma downloadName_named (s format : jsstring) :
  s <> [] -> downloadName (Some s) format = s ++ lit "-asset." ++ format.
Proof.
  intros H; apply truthy_nonempty in H.
  unfold downloadName, or_else; rewrite H; reflexivity.
Qed.

Lemma downloadName_blank (v : option jsstring) (format : jsstring) :
  blank v ->
  downloadName v format = lit "brandboost" ++ lit "-asset." ++ format.
Proof. intros [-> | ->]; reflexivity. Qed.

(** What a download, if one is made, consists of. *)
Lemma handleDownload_download (P : Platform) (w : World) (d : Download) :
  downloads (exec (handleDownload P) w) = downloads w ++ [d] ->
  exists g,
    generatedImage w = Some g /\ g <> []
    /\ ((streq (downloadFormat w) (lit "jpeg") = false
         /\ d = {| href := g;
                   download :=
                     downloadName (Validation.raw_businessName (formValues w))
                       (lit "png") |})
        \/ (streq (downloadFormat w) (lit "jpeg") = true
            /\ exists img,
                 loadImage P g = Some img /\ has2dContext P = true
                 /\ d = {| href := toDataURL P (rasterize img)
                                     (lit "image/jpeg") (9 # 10)%Q;
                           download :=
                             downloadName
                               (Validation.raw_businessName (formValues w))
                               (lit "jpeg") |})).
Proof.
  intros H.
  destruct (truthy_opt (generatedImage w)) eqn:Ht.
  2:{ rewrite (handleDownload_nothing P w Ht) in H.
      destruct (@not_self_append _ _ _ H). }
  destruct (generatedImage w) as [g|] eqn:Hg; [|discriminate Ht].
  cbn [truthy_opt] in Ht; apply truthy_nonempty in Ht.
  exists g; split; [reflexivity | split; [exact Ht|]].
  destruct (streq (downloadFormat w) (lit "jpeg")) eqn:Hf.
  - right; split; [reflexivity|].
    rewrite (handleDownload_jpeg P w Hg Ht Hf) in H.
    destruct (loadImage P g) as [img|];
      [destruct (has2dContext P)|]; try destruct (@not_self_append _ _ _ H).
    rewrite downloadWithFormat_effect in H.
    apply app_inv_head in H; injection H as <-.
    exists img; repeat split.
  - left; split; [reflexivity|].
    rewrite (handleDownload_png P w Hg Ht Hf), downloadWithFormat_effect in H.
    apply app_inv_head in H; injection H as <-; reflexivity.
Qed.

End DownloadFacts.

(** C9, as stated, fails: after a result was generated the user empties
    the business name and downloads; the file is saved as
    "brandboost-asset.png", not as "-asset.png". *)
Lemma empty_business_name_saves_as_brandboost :
  let w := Samples.afterClearingName in
  let w' := Client.exec (Client.handleDownload Samples.withMedia) w in
  Validation.raw_businessName (formValues w) = Some []
  /\ downloadFormat w = lit "png"
  /\ exists d,
       downloads w' = downloads w ++ [d]
       /\ download d = lit "brandboost-asset.png"
       /\ download d <> [] ++ lit "-asset." ++ lit "png".
Proof.
  split; [reflexivity | split; [reflexivity|]].
  eexists; split; [vm_compute; reflexivity|].
  split; [reflexivity | vm_compute; discriminate].
Qed.

(** C9, amended. For every download, the saved file's name is the
    business name, or "brandboost" when the business name is missing or
    empty, followed by "-asset." and the extension of the chosen format:
    "jpeg" when JPEG is chosen, "png" otherwise. *)
Theorem saved_file_name (P : Platform) (w : World) (d : Download) :
  downloads (Client.exec (Client.handleDownload P) w) = downloads w ++ [d] ->
  let extension :=
    if streq (downloadFormat w) (lit "jpeg") then lit "jpeg" else lit "png" in
  (downloadFormat w = lit "jpeg" -> extension = lit "jpeg")
  /\ (downloadFormat w = lit "png" -> extension = lit "png")
  /\ (forall s,
        Validation.raw_businessName (formValues w) = Some s -> s <> [] ->
        download d = s ++ lit "-asset." ++ extension)
  /\ (blank (Validation.raw_businessName (formValues w)) ->
      download d = lit "brandboost-asset." ++ extension).
Proof.
  intros H extension; subst extension.
  split; [intros ->; reflexivity | split; [intros ->; reflexivity|]].
  destruct (@DownloadFacts.handleDownload_download P w d H)
    as (g & _ & _ & [[Hf ->] | [Hf (img & _ & _ & ->)]]);
    rewrite Hf; cbn [download]; split.
  - intros s -> Hs; apply DownloadFacts.downloadName_named; exact Hs.
  - intros Hb; rewrite (@DownloadFacts.downloadName_blank _ _ Hb); reflexivity.
  - intros s -> Hs; apply DownloadFacts.downloadName_named; exact Hs.
  - intros Hb; rewrite (@DownloadFacts.downloadName_blank _ _ Hb); reflexivity.
Qed.

Lemma saved_file_name_witness :
  let w := Samples.afterSuccess in
  let extension :=
    if streq (downloadFormat w) (lit "jpeg") then lit "jpeg" else lit "png" in
  (downloadFormat w = lit "jpeg" -> extension = lit "jpeg")
  /\ (downloadFormat w = lit "png" -> extension = lit "png")
  /\ (forall s,
        Validation.raw_businessName (formValues w) = Some s -> s <> [] ->
        lit "Acme Bakery-asset.png" = s ++ lit "-asset." ++ extension)
  /\ (blank (Validation.raw_businessName (formValues w)) ->
      lit "Acme Bakery-asset.png" = lit "brandboost-asset." ++ extension).
Proof.
  apply (saved_file_name Samples.withMedia Samples.afterSuccess
           {| href := lit "data:image/png;base64,iVBORw0KGgo=";
              download := lit "Acme Bakery-asset.png" |}).
  vm_compute; reflexivity.
Defined.

(** C4. With a result on display: when PNG is chosen the link that is
    clicked carries the result's data as it is; when JPEG is chosen and the
    image loads, the link carries the JPEG encoding of a canvas of the
    image's size on which the image was drawn over a white fill: every
    pixel of the canvas is opaque, it is white where the image is fully
    transparent and it is the image's own pixel where the image is fully
    opaque; when the image does not load or no 2D context exists, nothing
    is downloaded. *)
Theorem download_passes_png_and_flattens_jpeg
  (P : Platform) (w : World) (g : jsstring) :
  generatedImage w = Some g -> g <> [] ->
  let w' := Client.exec (Client.handleDownload P) w in
  (downloadFormat w = lit "png" ->
   exists name,
     downloads w' = downloads w ++ [{| href := g; download := name |}])
  /\ (downloadFormat w = lit "jpeg" ->
      match loadImage P g with
      | Some img =>
          if has2dContext P then
            exists name,
              downloads w'
              = downloads w
                ++ [{| href := toDataURL P (Client.rasterize img)
                                 (lit "image/jpeg") (9 # 10)%Q;
                       download := name |}]
          else downloads w' = downloads w
      | None => downloads w' = downloads w
      end)
  /\ (forall img : Canvas.ImageData,
        let canvas := Client.rasterize img in
        Canvas.width canvas = Canvas.width img
        /\ Canvas.height canvas = Canvas.height img
        /\ Canvas.opaque canvas
        /\ (forall i j,
              (i < Canvas.width img)%N -> (j < Canvas.height img)%N ->
              Canvas.alpha (Canvas.pixel img i j) = 0%N ->
              Canvas.pixel canvas i j = white)
        /\ (forall i j,
              (i < Canvas.width img)%N -> (j < Canvas.height img)%N ->
              Canvas.alpha (Canvas.pixel img i j) = 255%N ->
              (Canvas.red (Canvas.pixel img i j) <= 255)%N ->
              (Canvas.green (Canvas.pixel img i j) <= 255)%N ->
              (Canvas.blue (Canvas.pixel img i j) <= 255)%N ->
              Canvas.pixel canvas i j = Canvas.pixel img i j)).
Proof.
  intros Hg Hne w'; subst w'; split; [|split].
  - intros Hf.
    rewrite (@DownloadFacts.handleDownload_png P w g Hg Hne)
      by (rewrite Hf; reflexivity).
    eexists; apply DownloadFacts.downloadWithFormat_effect.
  - intros Hf.
    rewrite (@DownloadFacts.handleDownload_jpeg P w g Hg Hne)
      by (rewrite Hf; reflexivity).
    destruct (loadImage P g) as [img|]; [|reflexivity].
    destruct (has2dContext P); [|reflexivity].
    eexists; apply DownloadFacts.downloadWithFormat_effect.
  - intros img canvas; subst canvas.
    destruct (CanvasFacts.rasterize_size img) as [Hw Hh].
    split; [exact Hw | split; [exact Hh | split; [|split]]].
    + apply CanvasFacts.rasterize_opaque.
    + intros i j Hi Hj Ha.
      rewrite (@CanvasFacts.rasterize_pixel img i j Hi Hj).
      apply CanvasFacts.transparent_over_white; exact Ha.
    + intros i j Hi Hj Halpha Hred Hgreen Hblue.
      rewrite (@CanvasFacts.rasterize_pixel img i j Hi Hj).
      apply CanvasFacts.opaque_over; assumption.
Qed.

Lemma download_passes_png_and_flattens_jpeg_witness :
  let P := Samples.withMedia in
  let w := Samples.afterChoosingJpeg in
  let g := lit "data:image/png;base64,iVBORw0KGgo=" in
  let w' := Client.exec (Client.handleDownload P) w in
  (downloadFormat w = lit "png" ->
   exists name,
     downloads w' = downloads w ++ [{| href := g; download := name |}])
  /\ (downloadFormat w = lit "jpeg" ->
      match loadImage P g with
      | Some img =>
          if has2dContext P then
            exists name,
              downloads w'
              = downloads w
                ++ [{| href := toDataURL P (Client.rasterize img)
                                 (lit "image/jpeg") (9 # 10)%Q;
                       download := name |}]
          else downloads w' = downloads w
      | None => downloads w' = downloads w
      end)
  /\ (forall img : Canvas.ImageData,
        let canvas := Client.rasterize img in
        Canvas.width canvas = Canvas.width img
        /\ Canvas.height canvas = Canvas.height img
        /\ Canvas.opaque canvas
        /\ (forall i j,
              (i < Canvas.width img)%N -> (j < Canvas.height img)%N ->
              Canvas.alpha (Canvas.pixel img i j) = 0%N ->
              Canvas.pixel canvas i j = white)
        /\ (forall i j,
              (i < Canvas.width img)%N -> (j < Canvas.height img)%N ->
              Canvas.alpha (Canvas.pixel img i j) = 255%N ->
              (Canvas.red (Canvas.pixel img i j) <= 255)%N ->
              (Canvas.green (Canvas.pixel img i j) <= 255)%N ->
              (Canvas.blue (Canvas.pixel img i j) <= 255)%N ->
              Canvas.pixel canvas i j = Canvas.pixel img i j)).
Proof.
  apply (download_passes_png_and_flattens_jpeg
           Samples.withMedia Samples.afterChoosingJpeg
           (g := lit "data:image/png;base64,iVBORw0KGgo=")).
  - vm_compute; reflexivity.
  - discriminate.
Defined.

(* ================================================================== *)
(** ** Further properties: validation *)
(* ================================================================== *)

Module MoreValidationFacts.

Import Validation ValidationFacts.

Lemma imageFileSchema_nil (files : FileList) :
  imageFileSchema files = [] <-> referenceAccepted files.
Proof.
  unfold imageFileSchema, referenceAccepted, unset, acceptable.
  rewrite app_nil_iff, !refine_nil.
  destruct files as [[|f rest]|]; unfold size_ok, type_ok;
    cbn [no_files first_file List.length Nat.eqb orb].
  - split; [intros _; left; right; reflexivity | auto].
  - rewrite includes_In, N.leb_le; split.
    + intros [Hs Ht]; right; exists f, rest; auto.
    + intros [[E | E] | (f' & rest' & E & Ht & Hs)]; try discriminate E.
      injection E as <- <-; auto.
  - split; [intros _; left; left; reflexivity | auto].
Qed.

Lemma string_min_ok (n : nat) (m : jsstring) (v : option jsstring)
  (s : jsstring) :
  v = Some s -> string_min n m v = [] <-> n <= List.length s.
Proof.
  intros ->; rewrite string_min_nil; split.
  - intros (s' & E & H); injection E as <-; exact H.
  - intros H; exists s; auto.
Qed.

Lemma one_le_length (s : jsstring) : 1 <= List.length s <-> s <> [].
Proof. destruct s; simpl; split; try congruence; lia. Qed.

End MoreValidationFacts.

(** X1. [formSchema] accepts a form exactly when the logo is a selection
    of one acceptable file, the business name has at least 2 characters,
    the asset type and the image description are non-empty, and each
    reference field holds no file or a first file that is acceptable; the
    parsed values are then the form's values, unchanged.  The custom text
    and the colour palette play no part. *)
Theorem formSchema_accepts_exactly
  (v : Validation.RawValues) (parsed : Validation.FormValues) :
  Validation.formSchema v = inl parsed <->
  exists f name kind about,
    Validation.raw_logo v = Some [f] /\ acceptable f
    /\ Validation.raw_businessName v = Some name /\ 2 <= List.length name
    /\ Validation.raw_assetType v = Some kind /\ kind <> []
    /\ Validation.raw_imageDescription v = Some about /\ about <> []
    /\ referenceAccepted (Validation.raw_referenceImage1 v)
    /\ referenceAccepted (Validation.raw_referenceImage2 v)
    /\ parsed
       = {| Validation.logo := Some [f];
            Validation.businessName := name;
            Validation.assetType := kind;
            Validation.imageDescription := about;
            Validation.referenceImage1 := Validation.raw_referenceImage1 v;
            Validation.referenceImage2 := Validation.raw_referenceImage2 v;
            Validation.customText := Validation.raw_customText v;
            Validation.colorPalette := Validation.raw_colorPalette v |}.
Proof.
  split.
  - intros H.
    pose proof (ValidationFacts.formSchema_inl _ H) as Hnil.
    apply ValidationFacts.formIssues_nil in Hnil
      as (Hl & Hn & Hk & Ha & H1 & H2).
    apply ValidationFacts.logoSchema_nil in Hl as (f & El & Hf).
    apply ValidationFacts.string_min_nil in Hn as (name & En & Hn).
    apply ValidationFacts.string_min_nil in Hk as (kind & Ek & Hk).
    apply ValidationFacts.string_min_nil in Ha as (about & Ea & Ha).
    exists f, name, kind, about.
    apply MoreValidationFacts.one_le_length in Hk, Ha.
    apply MoreValidationFacts.imageFileSchema_nil in H1, H2.
    repeat (split; [assumption|]).
    unfold Validation.formSchema in H.
    rewrite En, Ek, Ea, El in H.
    destruct (Validation.formIssues v); congruence.
  - intros (f & name & kind & about & El & Hf & En & Hn & Ek & Hk & Ea & Ha
            & H1 & H2 & ->).
    assert (Hnil : Validation.formIssues v = []).
    { apply ValidationFacts.formIssues_nil.
      rewrite (MoreValidationFacts.string_min_ok _ _ En),
        (MoreValidationFacts.string_min_ok _ _ Ek),
        (MoreValidationFacts.string_min_ok _ _ Ea),
        !MoreValidationFacts.one_le_length,
        !MoreValidationFacts.imageFileSchema_nil,
        ValidationFacts.logoSchema_nil.
      repeat split; try assumption.
      exists f; split; [exact El | exact Hf]. }
    unfold Validation.formSchema; rewrite Hnil, En, Ek, Ea, El; reflexivity.
Qed.

(* ================================================================== *)
(** ** Further properties: submission *)
(* ================================================================== *)

Module MoreSubmitFacts.

(** Splits on the next answer of the environment and records it in the
    hypotheses as well. *)
Ltac answer :=
  match goal with
  | |- context [match Validation.first_file ?x with _ => _ end] =>
      let E := fresh "Efile" in
      destruct (Validation.first_file x) eqn:E; try rewrite E in *
  | |- context [match readAsDataURL ?P ?f with _ => _ end] =>
      let E := fresh "Eread" in
      destruct (readAsDataURL P f) eqn:E; try rewrite E in *
  | |- context [match ai_generate ?P ?p with _ => _ end] =>
      let E := fresh "Egen" in
      destruct (ai_generate P p) as [[[?]|]|] eqn:E
  | |- context [if truthy ?u then _ else _] =>
      let E := fresh "Eurl" in
      destruct (truthy u) eqn:E
  end; OnSubmitFacts.run.

(** All the ways a run of [onSubmit] can go. *)
Ltac cases w :=
  destruct w as [gi il df fv fe ts ce gc dl];
  OnSubmitFacts.run; repeat answer.

End MoreSubmitFacts.

(** X2. A run of [onSubmit] never throws and always ends with the loading
    flag cleared.  It shows exactly one toast: the success toast together
    with a non-empty displayed result, or the failure toast together with
    no displayed result and one line on the error console.  It calls the
    service at most once and leaves the form, its errors, the chosen
    format and the downloads alone. *)
Theorem onSubmit_always_settles
  (P : Platform) (w : World) (values : Validation.FormValues) :
  let w' := Client.exec (Client.onSubmit P values) w in
  fst (Client.onSubmit P values w) = Ok tt
  /\ isLoading w' = false
  /\ ((toasts w' = toasts w ++ [assetGeneratedToast]
       /\ consoleErrors w' = consoleErrors w
       /\ exists u, generatedImage w' = Some u /\ u <> [])
      \/ (toasts w' = toasts w ++ [generationFailedToast]
          /\ generatedImage w' = None
          /\ exists line, consoleErrors w' = consoleErrors w ++ [line]))
  /\ (generateCalls w' = generateCalls w
      \/ exists prompt, generateCalls w' = generateCalls w ++ [prompt])
  /\ downloadFormat w' = downloadFormat w
  /\ formValues w' = formValues w
  /\ formErrors w' = formErrors w
  /\ downloads w' = downloads w.
Proof.
  intros w'; subst w'; MoreSubmitFacts.cases w.
  all: split; [reflexivity | split; [reflexivity|]].
  all: split; [|split; [eauto | repeat split]].
  all: first
    [ right; split; [reflexivity | split; [reflexivity|]]; eexists; reflexivity
    | left; split; [reflexivity | split; [reflexivity|]];
      eexists; split; [reflexivity | apply truthy_nonempty; assumption] ].
Qed.

(** X3. A result is displayed after [onSubmit] only if the service was
    called with the prompt of a request that carries the form's values and
    answered with media whose URL is that result; the URL is not empty and
    the success toast is shown. *)
Theorem displayed_result_is_the_service_media
  (P : Platform) (w : World) (values : Validation.FormValues)
  (u : jsstring) :
  let w' := Client.exec (Client.onSubmit P values) w in
  generatedImage w' = Some u ->
  u <> []
  /\ toasts w' = toasts w ++ [assetGeneratedToast]
  /\ exists logoUri ref1 ref2,
       let request := requestFor values logoUri ref1 ref2 in
       generateCalls w' = generateCalls w ++ [FlowA.prompt request]
       /\ ai_generate P (FlowA.prompt request) = Ok (Some {| url := u |}).
Proof.
  intros w'; subst w'; MoreSubmitFacts.cases w.
  all: intros H; try discriminate H.
  all: injection H as <-.
  all: split; [apply truthy_nonempty; assumption | split; [reflexivity|]].
  all: do 3 eexists; split; [reflexivity | eassumption].
Qed.

Lemma displayed_result_is_the_service_media_witness :
  let w := Client.exec (setValues (Samples.sampleValues (lit "Acme Bakery")))
             Client.initial in
  let values := Samples.parsedValues (lit "Acme Bakery") in
  let u := lit "data:image/png;base64,iVBORw0KGgo=" in
  let w' := Client.exec (Client.onSubmit Samples.withMedia values) w in
  u <> []
  /\ toasts w' = toasts w ++ [assetGeneratedToast]
  /\ exists logoUri ref1 ref2,
       let request := requestFor values logoUri ref1 ref2 in
       generateCalls w' = generateCalls w ++ [FlowA.prompt request]
       /\ ai_generate Samples.withMedia (FlowA.prompt request)
          = Ok (Some {| url := u |}).
Proof.
  apply (displayed_result_is_the_service_media Samples.withMedia
           (Client.exec (setValues (Samples.sampleValues (lit "Acme Bakery")))
              Client.initial)
           (Samples.parsedValues (lit "Acme Bakery"))).
  vm_compute; reflexivity.
Defined.

(** X4. When the call of a submission is answered by a thrown error, or by
    media whose URL is empty, [onSubmit] shows the failure toast, displays
    no result and logs the error: the thrown one, or "AI did not return an
    image." for the empty URL. *)
Theorem unusable_answer_is_a_failure
  (P : Platform) (w : World) (values : Validation.FormValues)
  (prompt : list Part) :
  let w' := Client.exec (Client.onSubmit P values) w in
  generateCalls w' = generateCalls w ++ [prompt] ->
  (ai_generate P prompt = Ok (Some {| url := [] |})
   \/ exists e, ai_generate P prompt = Throw e) ->
  toasts w' = toasts w ++ [generationFailedToast]
  /\ generatedImage w' = None
  /\ isLoading w' = false
  /\ (ai_generate P prompt = Ok (Some {| url := [] |}) ->
      consoleErrors w'
      = consoleErrors w
        ++ [lit "Error generating asset: AI did not return an image."])
  /\ (forall e, ai_generate P prompt = Throw e ->
      consoleErrors w'
      = consoleErrors w ++ [lit "Error generating asset: " ++ e]).
Proof.
  intros w'; subst w'; MoreSubmitFacts.cases w.
  all: intros Hcalls Hans.
  all: try (destruct (@DownloadFacts.not_self_append _ _ _ Hcalls)).
  all: apply app_inv_head in Hcalls; injection Hcalls as <-.
  all: destruct Hans as [Hans | [e Hans]]; rewrite Hans in *;
    try discriminate.
  all: repeat match goal with
         | H : Ok _ = Ok _ |- _ => injection H as ?; subst
         | H : Throw _ = Throw _ |- _ => injection H as ?; subst
         end;
    try discriminate.
  all: repeat split; try discriminate; try reflexivity.
  all: intros e' He'; injection He' as <-; reflexivity.
Qed.

Lemma unusable_answer_is_a_failure_witness :
  let P := MoreSamples.withEmptyMedia in
  let w := Samples.afterSuccess in
  let prompt := FlowA.prompt Samples.sentRequest in
  let w' := Client.exec
              (Client.onSubmit P (Samples.parsedValues (lit "Acme Bakery")))
              w in
  toasts w' = toasts w ++ [generationFailedToast]
  /\ generatedImage w' = None
  /\ isLoading w' = false
  /\ (ai_generate P prompt = Ok (Some {| url := [] |}) ->
      consoleErrors w'
      = consoleErrors w
        ++ [lit "Error generating asset: AI did not return an image."])
  /\ (forall e, ai_generate P prompt = Throw e ->
      consoleErrors w'
      = consoleErrors w ++ [lit "Error generating asset: " ++ e]).
Proof.
  apply (unusable_answer_is_a_failure MoreSamples.withEmptyMedia
           Samples.afterSuccess (Samples.parsedValues (lit "Acme Bakery"))
           (FlowA.prompt Samples.sentRequest)).
  - vm_compute; reflexivity.
  - left; reflexivity.
Defined.

(** X5. When the logo is missing from the values, or reading the logo or a
    selected reference image fails, [onSubmit] does not call the service:
    it shows the failure toast and displays no result. *)
Theorem unreadable_file_prevents_the_call
  (P : Platform) (w : World) (values : Validation.FormValues) :
  Validation.first_file (Validation.logo values) = None
  \/ (exists f e,
        (Validation.first_file (Validation.logo values) = Some f
         \/ Validation.first_file (Validation.referenceImage1 values) = Some f
         \/ Validation.first_file (Validation.referenceImage2 values) = Some f)
        /\ readAsDataURL P f = Throw e) ->
  let w' := Client.exec (Client.onSubmit P values) w in
  generateCalls w' = generateCalls w
  /\ toasts w' = toasts w ++ [generationFailedToast]
  /\ generatedImage w' = None
  /\ isLoading w' = false.
Proof.
  intros H w'; subst w'; MoreSubmitFacts.cases w.
  all: try (repeat split; fail).
  all: exfalso; destruct H as [H | (f' & e' & [H | [H | H]] & Hr)];
    try discriminate H; injection H as <-; congruence.
Qed.

Lemma unreadable_file_prevents_the_call_witness :
  let w' := Client.exec
              (Client.onSubmit MoreSamples.withBrokenReader
                 (Samples.parsedValues (lit "Acme Bakery")))
              Samples.afterSuccess in
  generateCalls w' = generateCalls Samples.afterSuccess
  /\ toasts w' = toasts Samples.afterSuccess ++ [generationFailedToast]
  /\ generatedImage w' = None
  /\ isLoading w' = false.
Proof.
  apply (unreadable_file_prevents_the_call MoreSamples.withBrokenReader
           Samples.afterSuccess (Samples.parsedValues (lit "Acme Bakery"))).
  right; exists Samples.sampleFile, (lit "NotReadableError"); split.
  - left; reflexivity.
  - reflexivity.
Defined.

(** X6. When the logo and the selected reference images are read,
    [onSubmit] calls the service exactly once, with the prompt of the
    request that holds the form's business name, asset type, description,
    custom text and colour palette, the logo's data URI, and the data URI
    of each selected reference image (none for a field without file). *)
Theorem request_carries_the_form
  (P : Platform) (w : World) (values : Validation.FormValues)
  (f : Validation.File) (logoUri : jsstring) (ref1 ref2 : option jsstring) :
  Validation.first_file (Validation.logo values) = Some f ->
  readAsDataURL P f = Ok logoUri ->
  readsAs P (Validation.referenceImage1 values) ref1 ->
  readsAs P (Validation.referenceImage2 values) ref2 ->
  let w' := Client.exec (Client.onSubmit P values) w in
  generateCalls w'
  = generateCalls w ++ [FlowA.prompt (requestFor values logoUri ref1 ref2)].
Proof.
  intros Hf Hr H1 H2 w'; subst w'; unfold readsAs in H1, H2.
  MoreSubmitFacts.cases w.
  all: try discriminate Hf; try injection Hf as ->.
  all: try congruence.
  all: rewrite Hr in *.
  all: repeat match goal with
         | H : exists _, _ /\ _ |- _ => destruct H as (? & ? & ?)
         | H : Ok _ = Ok _ |- _ => injection H as ?
         | H : Throw _ = Ok _ |- _ => discriminate H
         | H : Ok _ = Throw _ |- _ => discriminate H
         end; subst; try reflexivity.
Qed.

Lemma request_carries_the_form_witness :
  let w := Client.exec (setValues (Samples.sampleValues (lit "Acme Bakery")))
             Client.initial in
  let values := Samples.parsedValues (lit "Acme Bakery") in
  let w' := Client.exec (Client.onSubmit Samples.withMedia values) w in
  generateCalls w'
  = generateCalls w
    ++ [FlowA.prompt
          (requestFor values (lit "data:image/png;base64,TE9HTw==")
             None None)].
Proof.
  apply (request_carries_the_form Samples.withMedia
           (Client.exec (setValues (Samples.sampleValues (lit "Acme Bakery")))
              Client.initial)
           (Samples.parsedValues (lit "Acme Bakery"))
           (f := Samples.sampleFile)); reflexivity.
Defined.

(* ================================================================== *)
(** ** Further properties: download and whole sessions *)
(* ================================================================== *)

Module MoreDownloadFacts.

Import Client.

(** A click on Download leaves the world as it is or adds one download. *)
Lemma handleDownload_world (P : Platform) (w : World) :
  handleDownload P w = (Ok tt, w)
  \/ exists d, handleDownload P w = click d w.
Proof.
  cbv beta iota zeta delta [handleDownload downloadWithFormat bind get ret negb].
  destruct (truthy_opt (generatedImage w)); [|left; reflexivity].
  destruct (streq (downloadFormat w) (lit "jpeg")).
  - destruct (loadImage P _); [destruct (has2dContext P)|];
      try (left; reflexivity).
    right; eexists; reflexivity.
  - right; eexists; reflexivity.
Qed.

End MoreDownloadFacts.

(** X7. A click on Download never throws and touches nothing but the list
    of downloads, to which it adds at most one entry; without a displayed
    result (none, or an empty one) it adds none. *)
Theorem handleDownload_only_adds_a_download (P : Platform) (w : World) :
  let w' := Client.exec (Client.handleDownload P) w in
  fst (Client.handleDownload P w) = Ok tt
  /\ (downloads w' = downloads w
      \/ exists d, downloads w' = downloads w ++ [d])
  /\ (generatedImage w = None \/ generatedImage w = Some [] ->
      downloads w' = downloads w)
  /\ generatedImage w' = generatedImage w
  /\ isLoading w' = isLoading w
  /\ downloadFormat w' = downloadFormat w
  /\ formValues w' = formValues w
  /\ formErrors w' = formErrors w
  /\ toasts w' = toasts w
  /\ consoleErrors w' = consoleErrors w
  /\ generateCalls w' = generateCalls w.
Proof.
  intros w'; subst w'; unfold Client.exec.
  split; [|split; [|split]].
  - destruct (MoreDownloadFacts.handleDownload_world P w) as [-> | [d ->]];
      reflexivity.
  - destruct (MoreDownloadFacts.handleDownload_world P w) as [-> | [d ->]];
      [left; reflexivity | right; exists d; reflexivity].
  - intros H.
    assert (Ht : truthy_opt (generatedImage w) = false)
      by (destruct H as [-> | ->]; reflexivity).
    pose proof (DownloadFacts.handleDownload_nothing P w Ht) as E.
    unfold Client.exec in E; rewrite E; reflexivity.
  - destruct (MoreDownloadFacts.handleDownload_world P w) as [-> | [d ->]];
      repeat split.
Qed.

(** X8. Converting to JPEG leaves an opaque image as it is before
    encoding: a pixel of the image that is fully opaque (alpha 255, each
    channel a byte) is the same pixel on the rasterized canvas. *)
Theorem rasterize_keeps_opaque_pixels
  (img : Canvas.ImageData) (i j : N) :
  (i < Canvas.width img)%N -> (j < Canvas.height img)%N ->
  Canvas.alpha (Canvas.pixel img i j) = 255%N ->
  (Canvas.red (Canvas.pixel img i j) <= 255)%N ->
  (Canvas.green (Canvas.pixel img i j) <= 255)%N ->
  (Canvas.blue (Canvas.pixel img i j) <= 255)%N ->
  Canvas.pixel (Client.rasterize img) i j = Canvas.pixel img i j.
Proof.
  intros Hi Hj Ha Hr Hg Hb.
  rewrite (@CanvasFacts.rasterize_pixel img i j Hi Hj).
  apply CanvasFacts.opaque_over; assumption.
Qed.

Lemma rasterize_keeps_opaque_pixels_witness :
  Canvas.pixel (Client.rasterize MoreSamples.opaqueImage) 0 0
  = Canvas.pixel MoreSamples.opaqueImage 0 0.
Proof.
  apply (@rasterize_keeps_opaque_pixels MoreSamples.opaqueImage 0%N 0%N);
    vm_compute; first [reflexivity | discriminate].
Defined.

Module SessionFacts.

Lemma onSubmit_counts (P : Platform) (w : World)
  (values : Validation.FormValues) :
  let w' := Client.exec (Client.onSubmit P values) w in
  isLoading w' = false
  /\ generatedImage w' <> Some []
  /\ List.length (toasts w') = S (List.length (toasts w))
  /\ List.length (generateCalls w') <= S (List.length (generateCalls w))
  /\ downloads w' = downloads w.
Proof.
  intros w'; subst w'; MoreSubmitFacts.cases w.
  all: rewrite ?length_app; cbn [List.length].
  all: repeat split; try discriminate; try lia.
  all: intros E; injection E as E; rewrite E in *; discriminate.
Qed.

Lemma step_settled (e : Session.Event) (w : World) (n m : nat) :
  settled n m w ->
  settled (n + if Session.isSubmit e then 1 else 0)
          (m + if Session.isClick e then 1 else 0)
          (Session.step w e).
Proof.
  unfold settled; intros (Hl & Hg & Hc & Ht & Hd).
  destruct e as [values | format | P | P]; cbn [Session.step Session.isSubmit
                                                 Session.isClick].
  - rewrite !Nat.add_0_r; repeat split; assumption.
  - rewrite !Nat.add_0_r; repeat split; assumption.
  - rewrite Nat.add_0_r.
    destruct (Validation.formSchema (formValues w)) as [parsed | issues] eqn:E.
    + unfold Client.exec; rewrite (SubmitFacts.handleSubmit_valid _ _ E).
      change (snd (bind (setErrors []) (fun _ => Client.onSubmit P parsed) w))
        with (Client.exec (Client.onSubmit P parsed)
                (Client.exec (setErrors []) w)).
      set (w0 := Client.exec (setErrors []) w).
      assert (E0 : toasts w0 = toasts w
                   /\ generateCalls w0 = generateCalls w
                   /\ downloads w0 = downloads w) by (repeat split).
      destruct E0 as (Et & Ec & Ed).
      destruct (onSubmit_counts P w0 parsed) as (Hl' & Hg' & Ht' & Hc' & Hd').
      rewrite Et in Ht'; rewrite Ec in Hc'; rewrite Ed in Hd'.
      repeat split; try assumption; try lia.
      rewrite Hd'; exact Hd.
    + unfold Client.exec; rewrite (SubmitFacts.handleSubmit_invalid _ _ E).
      repeat split; try assumption; cbn; lia.
  - rewrite Nat.add_0_r; unfold Client.exec.
    destruct (MoreDownloadFacts.handleDownload_world P w) as [-> | [d ->]].
    + repeat split; try assumption; cbn [snd]; lia.
    + repeat split; try assumption.
      cbn [click modify snd downloads]; rewrite length_app; cbn [List.length].
      lia.
Qed.

Lemma run_settled (events : list Session.Event) (w : World) (n m : nat) :
  settled n m w ->
  settled (n + List.length (filter Session.isSubmit events))
          (m + List.length (filter Session.isClick events))
          (fold_left Session.step events w).
Proof.
  revert w n m; induction events as [|e events IH]; intros w n m H.
  - cbn [filter List.length fold_left]; rewrite !Nat.add_0_r; exact H.
  - cbn [fold_left filter].
    pose proof (IH _ _ _ (step_settled e H)) as H'.
    destruct (Session.isSubmit e), (Session.isClick e); cbn [List.length];
      match type of H' with
      | settled ?a' ?b' _ =>
          match goal with
          | |- settled ?a ?b _ =>
              replace a with a' by lia; replace b with b' by lia
          end
      end; exact H'.
Qed.

Lemma initial_settled : settled 0 0 Client.initial.
Proof. repeat split; cbn; try discriminate; lia. Qed.

End SessionFacts.

(** X9. Whatever the user does (edit the form, choose a format, submit,
    click Download) and however the environment answers, the page comes to
    rest not loading and with no empty result on display; the service was
    called at most as often as a toast was shown, a toast was shown at most
    once per submission, and a file was downloaded at most once per click. *)
Theorem every_session_settles (events : list Session.Event) :
  let w := Session.run events in
  isLoading w = false
  /\ generatedImage w <> Some []
  /\ List.length (generateCalls w) <= List.length (toasts w)
  /\ List.length (toasts w) <= List.length (filter Session.isSubmit events)
  /\ List.length (downloads w)
     <= List.length (filter Session.isClick events).
Proof.
  intros w; subst w; unfold Session.run.
  pose proof (@SessionFacts.run_settled events Client.initial 0 0
                SessionFacts.initial_settled) as H.
  cbn [Nat.add] in H; exact H.
Qed.

(* ================================================================== *)
(** ** Further properties: previews of the selected files *)
(* ================================================================== *)

Module PreviewFacts.

Import Previews.

Lemma initial_tidy : tidy initial.
Proof. repeat split; intros u H; discriminate H. Qed.

Lemma runCleanup_clears (s : PreviewState) :
  tidy s -> live (runCleanup s) = [] /\ created (runCleanup s) = created s.
Proof.
  intros (Hc & Hl & _); unfold runCleanup; rewrite Hc.
  destruct (preview s) as [u|]; [|split; [exact Hl | reflexivity]].
  unfold revokeObjectURL; cbn [live created]; rewrite Hl.
  cbn [filter]; rewrite N.eqb_refl; split; reflexivity.
Qed.

Lemma filesChanged_tidy (files : Validation.FileList) (s : PreviewState) :
  tidy s -> tidy (filesChanged files s).
Proof.
  intros H; destruct (runCleanup_clears H) as [Hl Hn].
  unfold filesChanged, effect, tidy.
  destruct files as [[|file rest]|]; cbn [preview cleanup live created];
    rewrite ?Hl, ?Hn; repeat split; try discriminate.
  intros u E; injection E as <-; lia.
Qed.

Lemma after_snoc (changes : list Validation.FileList)
  (files : Validation.FileList) :
  after (changes ++ [files]) = filesChanged files (after changes).
Proof. unfold after; rewrite fold_left_app; reflexivity. Qed.

Lemma after_tidy (changes : list Validation.FileList) : tidy (after changes).
Proof.
  induction changes as [|files changes IH] using rev_ind.
  - exact initial_tidy.
  - rewrite after_snoc; apply filesChanged_tidy; exact IH.
Qed.

Lemma filesChanged_preview_none (files : Validation.FileList)
  (s : PreviewState) :
  preview (filesChanged files s) = None <-> Validation.no_files files = true.
Proof.
  unfold filesChanged, effect.
  destruct files as [[|file rest]|]; cbn; split; congruence.
Qed.

Lemma filesChanged_created (files : Validation.FileList) (s : PreviewState) :
  tidy s ->
  created (filesChanged files s)
  = (created s + if Validation.no_files files then 0 else 1)%N.
Proof.
  intros H; destruct (runCleanup_clears H) as [_ Hn].
  unfold filesChanged, effect.
  destruct files as [[|file rest]|]; cbn [created Validation.no_files
                                           List.length Nat.eqb];
    rewrite Hn; lia.
Qed.

End PreviewFacts.

(** X10. Removing a selected file clears its preview and releases the
    object URL made for it: whatever happened to the field before, once a
    selection has produced a preview, the remove button leaves no preview,
    no live object URL and no pending cleanup, and creates no new URL. *)
Theorem removing_a_file_releases_its_preview
  (changes : list Validation.FileList) (f : Validation.File)
  (rest : list Validation.File) :
  let selected := Previews.filesChanged (Some (f :: rest))
                    (Previews.after changes) in
  let removed := Previews.onRemove selected in
  (exists u,
      Previews.preview selected = Some u
      /\ Previews.live selected = [u]
      /\ ~ In u (Previews.live removed))
  /\ Previews.preview removed = None
  /\ Previews.live removed = []
  /\ Previews.cleanup removed = None
  /\ Previews.created removed = Previews.created selected.
Proof.
  intros selected removed.
  assert (Hs : tidy selected)
    by (apply PreviewFacts.filesChanged_tidy, PreviewFacts.after_tidy).
  destruct (PreviewFacts.runCleanup_clears Hs) as [Hl Hn].
  assert (Hr : Previews.live removed = [] /\ Previews.created removed
                                             = Previews.created selected).
  { unfold removed, Previews.onRemove, Previews.filesChanged, Previews.effect.
    cbn [Previews.live Previews.created]; split; assumption. }
  destruct Hr as [Hrl Hrc]; split; [|repeat split; assumption].
  destruct Hs as (_ & Hlive & _).
  exists (Previews.created (Previews.runCleanup (Previews.after changes))).
  split; [reflexivity | split].
  - exact Hlive.
  - rewrite Hrl; intros [].
Qed.

(** X11. After any sequence of changes of a file field, the only object
    URL alive is the one of the preview shown, and its cleanup is the one
    pending; a preview is shown exactly when the last change selected a
    file; one URL was created per change that selected a file. *)
Theorem previews_never_leak (changes : list Validation.FileList) :
  let s := Previews.after changes in
  Previews.live s
  = match Previews.preview s with Some u => [u] | None => [] end
  /\ Previews.cleanup s = Previews.preview s
  /\ (Previews.preview s = None
      <-> Validation.no_files (last changes None) = true)
  /\ Previews.created s
     = N.of_nat
         (List.length
            (filter (fun files => negb (Validation.no_files files)) changes)).
Proof.
  intros s; subst s.
  destruct (PreviewFacts.after_tidy changes) as (Hc & Hl & _).
  split; [exact Hl | split; [exact Hc | clear Hc Hl; split]].
  - induction changes as [|c changes _] using rev_ind; [split; reflexivity|].
    rewrite PreviewFacts.after_snoc, last_last.
    apply PreviewFacts.filesChanged_preview_none.
  - induction changes as [|files changes IH] using rev_ind; [reflexivity|].
    rewrite PreviewFacts.after_snoc,
      (PreviewFacts.filesChanged_created _ (PreviewFacts.after_tidy changes)),
      IH, filter_app, length_app.
    cbn [filter]; destruct (Validation.no_files files); cbn [negb List.length];
      lia.
Qed.

(* ================================================================== *)
(** ** Further properties: the flows and the view *)
(* ================================================================== *)

Module MorePromptFacts.

Lemma occurs_in_prefix (s post : jsstring) : occurs_in s (s ++ post).
Proof. exists [], post; reflexivity. Qed.

(** The text holds the given lines: drop leading pieces until the lines
    are at the front. *)
Ltac find_lines :=
  repeat first
    [ (eexists [], _; cbn [app]; rewrite <- ?app_assoc; reflexivity)
    | apply PromptFacts.occurs_in_app_r ].

End MorePromptFacts.

(** X12. The integration flow sends the template as its only image; the
    logo is not sent as an image but written, as its data URI, into the one
    text segment, which also holds the business name.  The flow calls the
    service once with this prompt, returns the URL of the media as it is,
    and throws when the answer has no media. *)
Theorem integration_sends_the_logo_as_text
  (P : Platform) (w : World)
  (input : IntegrateFlow.IntegrateLogoAndNameInput) :
  let prompt := IntegrateFlow.prompt input in
  let result := IntegrateFlow.integrateLogoAndName P input w in
  mediaUrls prompt = [IntegrateFlow.templateDataUri input]
  /\ (exists s,
        texts prompt = [s]
        /\ occurs_in (lit "{{media url=" ++ IntegrateFlow.logoDataUri input
                      ++ lit "}}") s
        /\ occurs_in (lit "business name: "
                      ++ IntegrateFlow.businessName input) s)
  /\ generateCalls (snd result) = generateCalls w ++ [prompt]
  /\ (forall m, ai_generate P prompt = Ok (Some m) ->
        fst result = Ok {| IntegrateFlow.integratedAssetDataUri := url m |})
  /\ (ai_generate P prompt = Ok None -> exists e, fst result = Throw e)
  /\ (forall e, ai_generate P prompt = Throw e -> fst result = Throw e).
Proof.
  intros prompt result; subst prompt result.
  split; [reflexivity | split].
  - eexists; split; [reflexivity | split].
    + exists (lit "Integrate this logo: "),
        (lit ", and business name: " ++ IntegrateFlow.businessName input
         ++ lit " into the template").
      rewrite <- !app_assoc; reflexivity.
    + exists (lit "Integrate this logo: {{media url="
              ++ IntegrateFlow.logoDataUri input ++ lit "}}, and "),
        (lit " into the template").
      rewrite <- !app_assoc; reflexivity.
  - unfold IntegrateFlow.integrateLogoAndName,
      IntegrateFlow.integrateLogoAndNameFlow, bind, generate.
    destruct (ai_generate P (IntegrateFlow.prompt input)) as [[m|]|e];
      cbn [fst snd generateCalls ret throw]; repeat split;
      try discriminate.
    + intros m' E; injection E as <-; reflexivity.
    + intros _; eexists; reflexivity.
    + intros e' E; injection E as <-; reflexivity.
Qed.

(** X13. What the user entered reaches the model in the first version of
    the flow: the text holds the asset type after "Generate a ", then the
    lines of the business name, the custom text and the colour palette, in
    this order and as entered. *)
Theorem entered_fields_reach_the_prompt
  (a : FlowA.GenerateMarketingAssetTemplatesInput) :
  occurs_in (lit "Generate a " ++ FlowA.assetType a
             ++ lit " based on the following description: ")
    (FlowA.promptText a)
  /\ exists pre,
       FlowA.promptText a
       = pre ++ lit "Business Name: " ++ FlowA.businessName a ++ nl
             ++ lit "Custom Text: " ++ or_else (FlowA.customText a) [] ++ nl
             ++ lit "Color Palette: " ++ or_else (FlowA.colorPalette a) []
             ++ nl.
Proof.
  split.
  - unfold FlowA.promptText; MorePromptFacts.find_lines.
  - unfold FlowA.promptText; PromptFacts.find_suffix.
Qed.

(** X14. The Download button is enabled exactly when the preview card
    shows a generated image, and the submit button is disabled exactly when
    the card shows the spinner.  With the button enabled and a format other
    than JPEG chosen, a click downloads the very image that is shown. *)
Theorem download_button_follows_the_preview (P : Platform) (w : World) :
  (View.downloadDisabled w = false
   <-> exists g, View.previewPane w = View.GeneratedAsset g)
  /\ (View.submitDisabled w = true <-> View.previewPane w = View.Generating)
  /\ (forall g,
        View.previewPane w = View.GeneratedAsset g ->
        streq (downloadFormat w) (lit "jpeg") = false ->
        exists name,
          downloads (Client.exec (Client.handleDownload P) w)
          = downloads w ++ [{| href := g; download := name |}]).
Proof.
  unfold View.downloadDisabled, View.submitDisabled, View.previewPane.
  split; [|split].
  - destruct (isLoading w), (generatedImage w) as [[|c g]|]; cbn;
      split; try discriminate; try (intros [g' H]; discriminate H);
      try reflexivity.
    intros _; eexists; reflexivity.
  - destruct (isLoading w), (generatedImage w) as [[|c g]|]; cbn;
      split; congruence.
  - intros g Hg Hf.
    destruct (isLoading w); [discriminate Hg|].
    destruct (generatedImage w) as [g'|] eqn:Eg; [|discriminate Hg].
    destruct (truthy g') eqn:Ht; [|discriminate Hg].
    injection Hg as ->.
    apply truthy_nonempty in Ht.
    rewrite (@DownloadFacts.handleDownload_png P w g Eg Ht Hf).
    eexists; apply DownloadFacts.downloadWithFormat_effect.
Qed.
